(** * Ferreteria: the derived-field chain of sales, sale lines and stock

    A shallow embedding of the save overrides of [models.py], the
    post-save hook of [signals.py], the form check of [forms.py] and the
    two sale views of [views.py], followed by the properties of the
    recomputation chain.

    Conventions.
    - Money ([DecimalField] with two decimals) is an integer number of
      cents; [cantidad * precio_unitario] is exact on both sides.
    - A table keyed by primary key is a finite map; the two tables that
      are scanned by queries (sale lines, stock movements) are row lists in
      insertion order.
    - A Python object that has not been stored has [pk = None]; storing
      assigns the next value of the table's sequence.
    - Every operation runs in a small state-and-error monad over the
      database and the values still to be returned by [random.randint].
      An exception leaves the writes made so far in place unless the
      operation is wrapped in [atomic].
    - Timestamps maintained by the storage layer itself ([auto_now],
      [auto_now_add]) and the descriptive columns no operation reads are
      left out of the rows.
    - Of the checks of the storage backend, NOT NULL, UNIQUE and the
      protected foreign key of invoice lines are part of the model. The
      range checks of the numeric columns are not: a write of a negative
      [PositiveIntegerField] or of a decimal wider than its column goes
      through here and is refused by the backend. The properties that
      state that a sale goes through therefore assume that the quantity
      sold is not negative and does not exceed the stock of the product
      object, which keeps every quantity they write in range.
    - A text is read by [int] only when all its characters are ASCII;
      for any other text the model gives no answer ([NonAsciiText])
      instead of guessing one. *)

From Stdlib Require Import Ascii String.
From stdpp Require Import gmap strings list pretty sorting.

Local Open Scope Z_scope.

(** ** Records of [models.py] *)

Record Producto := mkProducto {
  p_pk : option Z;
  nombre : string;
  precio : Z;
  cantidad_stock : Z
}.

Record Venta := mkVenta {
  v_pk : option Z;
  fecha : Z;
  numero_comprobante : string;
  cliente : option Z;
  medio_de_pago : option Z;
  importe_total : Z;
  anulada : bool
}.

(** A sale line in memory holds the related objects themselves (the
    foreign-key caches of the ORM), not their keys. *)
Record DetalleVenta := mkDetalleVenta {
  dv_pk : option Z;
  venta : option Venta;
  producto : option Producto;
  cantidad : option Z;
  precio_unitario : option Z;
  importe : Z;
  hora : Z
}.

Record MovimientoStock := mkMovimientoStock {
  ms_pk : option Z;
  ms_producto : option Producto;
  tipo : string;
  ms_cantidad : option Z;
  comprobante : option string
}.

(** Stored rows of the two scanned tables. *)
Record DetalleRow := mkDetalleRow {
  dr_id : Z;
  dr_venta_id : option Z;
  dr_producto_id : option Z;
  dr_cantidad : option Z;
  dr_precio_unitario : Z;
  dr_importe : Z;
  dr_hora : Z
}.

Record MovRow := mkMovRow {
  mr_id : Z;
  mr_producto_id : Z;
  mr_tipo : string;
  mr_cantidad : Z;
  mr_comprobante : option string
}.

(** Stored invoice lines ([DetalleFactura]); no operation of this file
    writes them, [Producto.delete] reads their product column. *)
Record DetalleFacturaRow := mkDetalleFacturaRow {
  df_id : Z;
  df_factura_id : Z;
  df_producto_id : option Z;
  df_cantidad : Z;
  df_precio_unitario : Z
}.

Record DB := mkDB {
  clientes : gset Z;
  medios : gset Z;
  productos : gmap Z Producto;
  ventas : gmap Z Venta;
  detalles : list DetalleRow;
  movimientos : list MovRow;
  seq_producto : Z;
  seq_venta : Z;
  seq_detalle : Z;
  seq_mov : Z;
  detalles_factura : list DetalleFacturaRow
}.

Definition with_productos (d : DB) (ps : gmap Z Producto) (s : Z) : DB :=
  mkDB (clientes d) (medios d) ps (ventas d) (detalles d) (movimientos d)
       s (seq_venta d) (seq_detalle d) (seq_mov d) (detalles_factura d).

Definition with_ventas (d : DB) (vs : gmap Z Venta) (s : Z) : DB :=
  mkDB (clientes d) (medios d) (productos d) vs (detalles d) (movimientos d)
       (seq_producto d) s (seq_detalle d) (seq_mov d) (detalles_factura d).

Definition with_detalles (d : DB) (ls : list DetalleRow) (s : Z) : DB :=
  mkDB (clientes d) (medios d) (productos d) (ventas d) ls (movimientos d)
       (seq_producto d) (seq_venta d) s (seq_mov d) (detalles_factura d).

Definition with_movimientos (d : DB) (ms : list MovRow) (s : Z) : DB :=
  mkDB (clientes d) (medios d) (productos d) (ventas d) (detalles d) ms
       (seq_producto d) (seq_venta d) (seq_detalle d) s (detalles_factura d).

(** ** Exceptions and the monad *)

Inductive Error :=
| ValueError
| TypeError
| AttributeError
| IntegrityError
| DatabaseError
| DoesNotExist
| Http404
| ValidationError
| ProtectedError
| DrawsExhausted    (* the recorded draws ran out while the loop still runs *)
| NonAsciiText.     (* [int] was given a text this model does not read *)

Inductive Result (A : Type) :=
| Ok (a : A)
| Err (e : Error).
Arguments Ok {A} a.
Arguments Err {A} e.

Record World := mkWorld {
  db : DB;
  draws : list Z
}.

Definition M (A : Type) : Type := World -> Result A * World.

Definition ret {A} (a : A) : M A := fun w => (Ok a, w).

Definition raise {A} (e : Error) : M A := fun w => (Err e, w).

Definition bind {A B} (m : M A) (k : A -> M B) : M B :=
  fun w =>
    match m w with
    | (Ok a, w') => k a w'
    | (Err e, w') => (Err e, w')
    end.

Notation "'let*' x ':=' c1 'in' c2" := (bind c1 (fun x => c2))
  (at level 10, x name, c1 at level 100, c2 at level 200).

Definition get_db : M DB := fun w => (Ok (db w), w).

Definition put_db (d : DB) : M unit := fun w => (Ok tt, mkWorld d (draws w)).

(** [transaction.atomic]: an exception undoes the writes of the block. *)
Definition atomic {A} (m : M A) : M A :=
  fun w =>
    match m w with
    | (Ok a, w') => (Ok a, w')
    | (Err e, w') => (Err e, mkWorld (db w) (draws w'))
    end.

(** ** Storage layer: [Model.save] of a product *)

Definition set_p_pk (p : Producto) (k : option Z) : Producto :=
  mkProducto k (nombre p) (precio p) (cantidad_stock p).

Definition set_cantidad_stock (p : Producto) (n : Z) : Producto :=
  mkProducto (p_pk p) (nombre p) (precio p) n.

(** [Producto] has no [save] of its own: the inherited one inserts under a
    fresh key when [pk] is [None] and otherwise writes the row of that
    key (updating it, or inserting it when absent). The backend refuses
    a negative [cantidad_stock] ([PositiveIntegerField]); that check is
    not made here, see the conventions above. *)
Definition Producto_save (p : Producto) : M Producto :=
  let* d := get_db in
  match p_pk p with
  | Some k =>
      let* _ := put_db (with_productos d (<[k := p]> (productos d))
                                       (Z.max (seq_producto d) (k + 1))) in
      ret p
  | None =>
      let k := seq_producto d in
      let p' := set_p_pk p (Some k) in
      let* _ := put_db (with_productos d (<[k := p']> (productos d)) (k + 1)) in
      ret p'
  end.

(** ** [MovimientoStock.save] *)

Definition set_ms_producto (m : MovimientoStock) (p : option Producto) : MovimientoStock :=
  mkMovimientoStock (ms_pk m) p (tipo m) (ms_cantidad m) (comprobante m).

Definition set_ms_pk (m : MovimientoStock) (k : option Z) : MovimientoStock :=
  mkMovimientoStock k (ms_producto m) (tipo m) (ms_cantidad m) (comprobante m).

Definition update_mov (r : MovRow) (ms : list MovRow) : list MovRow :=
  (fun x => if mr_id x =? mr_id r then r else x) <$> ms.

(** [super().save()] of a movement. The product column and the quantity
    column are NOT NULL; a related object that was never stored is
    refused before any write. *)
Definition MovimientoStock_super_save (m : MovimientoStock) : M MovimientoStock :=
  let* d := get_db in
  match ms_producto m with
  | None => raise IntegrityError
  | Some p =>
      match p_pk p with
      | None => raise ValueError
      | Some pid =>
          match ms_cantidad m with
          | None => raise IntegrityError
          | Some q =>
              match ms_pk m with
              | None =>
                  let k := seq_mov d in
                  let r := mkMovRow k pid (tipo m) q (comprobante m) in
                  let* _ := put_db (with_movimientos d (movimientos d ++ [r]) (k + 1)) in
                  ret (set_ms_pk m (Some k))
              | Some k =>
                  let r := mkMovRow k pid (tipo m) q (comprobante m) in
                  let rows :=
                    if existsb (fun x => mr_id x =? k) (movimientos d)
                    then update_mov r (movimientos d)
                    else movimientos d ++ [r] in
                  let* _ := put_db (with_movimientos d rows (Z.max (seq_mov d) (k + 1))) in
                  ret m
              end
          end
      end
  end.

(** The body of [MovimientoStock.save]: store the movement, add the
    quantity to the product object when the movement is an entry, and
    store the product object in either case. *)
Definition MovimientoStock_save (m : MovimientoStock) : M MovimientoStock :=
  let* m1 := MovimientoStock_super_save m in
  match ms_producto m1, ms_cantidad m1 with
  | Some p, Some q =>
      let p1 := if String.eqb (tipo m1) "entrada"
                then set_cantidad_stock p (cantidad_stock p + q)
                else p in
      let* p2 := Producto_save p1 in
      ret (set_ms_producto m1 (Some p2))
  | _, _ => raise AttributeError
  end.

(** ** [signals.py]: [actualizar_stock_post_venta] *)

Definition set_producto (l : DetalleVenta) (p : option Producto) : DetalleVenta :=
  mkDetalleVenta (dv_pk l) (venta l) p (cantidad l) (precio_unitario l)
                 (importe l) (hora l).

(** The f-string [f"Venta {instance.venta.numero_comprobante}"]. *)
Definition etiqueta (v : Venta) : string :=
  String.append "Venta " (numero_comprobante v).

(** [MovimientoStock.objects.filter(comprobante=c, producto=p).exists()] *)
Definition mov_matches (c : string) (pid : Z) (r : MovRow) : bool :=
  bool_decide (mr_comprobante r = Some c) && (mr_producto_id r =? pid).

Definition mov_exists (c : string) (pid : Z) (ms : list MovRow) : bool :=
  existsb (mov_matches c pid) ms.

(** The receiver of [post_save] for sale lines. The product object of the
    line is the one handed to the new movement and the one decremented
    afterwards, so it is threaded through both steps. *)
Definition actualizar_stock_post_venta (instance : DetalleVenta) (created : bool)
  : M DetalleVenta :=
  match venta instance with
  | Some v =>
      if created && negb (anulada v) then
        match producto instance with
        | None => raise IntegrityError
        | Some p =>
            match p_pk p with
            | None => raise ValueError
            | Some pid =>
                let cantidad_vendida := cantidad instance in
                let* d := get_db in
                let* p1 :=
                  if mov_exists (etiqueta v) pid (movimientos d) then ret p
                  else
                    let* m := MovimientoStock_save
                                (mkMovimientoStock None (Some p) "salida"
                                   cantidad_vendida (Some (etiqueta v))) in
                    match ms_producto m with
                    | Some p' => ret p'
                    | None => ret p
                    end in
                match cantidad_vendida with
                | None => raise TypeError
                | Some q =>
                    let* p2 := Producto_save
                                 (set_cantidad_stock p1 (cantidad_stock p1 - q)) in
                    ret (set_producto instance (Some p2))
                end
            end
        end
      else ret instance
  | None => ret instance
  end.

(** ** [Venta]: receipt number, [save], [calcular_importe_total] *)

Definition set_v_pk (v : Venta) (k : option Z) : Venta :=
  mkVenta k (fecha v) (numero_comprobante v) (cliente v) (medio_de_pago v)
          (importe_total v) (anulada v).

Definition set_numero_comprobante (v : Venta) (n : string) : Venta :=
  mkVenta (v_pk v) (fecha v) n (cliente v) (medio_de_pago v)
          (importe_total v) (anulada v).

Definition set_importe_total (v : Venta) (t : Z) : Venta :=
  mkVenta (v_pk v) (fecha v) (numero_comprobante v) (cliente v)
          (medio_de_pago v) t (anulada v).

Definition set_anulada (v : Venta) (b : bool) : Venta :=
  mkVenta (v_pk v) (fecha v) (numero_comprobante v) (cliente v)
          (medio_de_pago v) (importe_total v) b.

(** The range handed to [random.randint]: [10**12 .. 10**13 - 1]. *)
Definition numero_min : Z := 10 ^ 12.
Definition numero_max : Z := 10 ^ 13 - 1.

(** [Venta.objects.filter(numero_comprobante=numero).exists()] *)
Definition numero_exists (numero : string) (vs : gmap Z Venta) : bool :=
  existsb (fun kv => String.eqb (numero_comprobante kv.2) numero) (map_to_list vs).

(** The [while True] loop of [generar_numero_comprobante] over the values
    that [random.randint(10**12, 10**13 - 1)] returns, in order: the first
    one whose decimal string is not the number of a stored sale is
    returned, the rest is left for later calls. *)
Fixpoint generar_loop (vs : gmap Z Venta) (ds : list Z) : Result string * list Z :=
  match ds with
  | [] => (Err DrawsExhausted, [])
  | n :: ds' =>
      let numero := pretty n in
      if numero_exists numero vs then generar_loop vs ds' else (Ok numero, ds')
  end.

Definition generar_numero_comprobante : M string :=
  fun w =>
    let '(r, ds) := generar_loop (ventas (db w)) (draws w) in
    (r, mkWorld (db w) ds).

(** UNIQUE on [numero_comprobante]: some other row already has it. *)
Definition numero_de_otra (k : option Z) (numero : string) (vs : gmap Z Venta) : bool :=
  existsb (fun kv => negb (bool_decide (Some kv.1 = k))
                     && String.eqb (numero_comprobante kv.2) numero)
          (map_to_list vs).

(** [super().save()] of a sale; [solo_total] stands for
    [update_fields=['importe_total']], the only field list the code
    passes. *)
Definition Venta_super_save (self : Venta) (solo_total : bool) : M Venta :=
  let* d := get_db in
  if solo_total then
    match v_pk self with
    | None => raise ValueError
    | Some k =>
        match ventas d !! k with
        | None => raise DatabaseError
        | Some row =>
            let* _ := put_db (with_ventas d
                                (<[k := set_importe_total row (importe_total self)]>
                                   (ventas d))
                                (seq_venta d)) in
            ret self
        end
    end
  else if numero_de_otra (v_pk self) (numero_comprobante self) (ventas d)
  then raise IntegrityError
  else
    match v_pk self with
    | None =>
        let k := seq_venta d in
        let self' := set_v_pk self (Some k) in
        let* _ := put_db (with_ventas d (<[k := self']> (ventas d)) (k + 1)) in
        ret self'
    | Some k =>
        let* _ := put_db (with_ventas d (<[k := self]> (ventas d))
                                      (Z.max (seq_venta d) (k + 1))) in
        ret self
    end.

(** [Venta.save], decorated with [transaction.atomic]. *)
Definition Venta_save (self : Venta) (solo_total : bool) : M Venta :=
  atomic
    (let* self1 :=
       match numero_comprobante self with
       | EmptyString =>
           let* n := generar_numero_comprobante in
           ret (set_numero_comprobante self n)
       | _ => ret self
       end in
     Venta_super_save self1 solo_total).

(** [self.detalleventa_set]: the stored lines of sale [k]. *)
Definition de_venta (k : Z) (r : DetalleRow) : bool :=
  bool_decide (dr_venta_id r = Some k).

Definition detalleventa_set (k : Z) (d : DB) : list DetalleRow :=
  List.filter (de_venta k) (detalles d).

(** [aggregate(total_importe=Sum('importe'))['total_importe']]: [None] on
    an empty set of rows. *)
Definition aggregate_Sum_importe (rows : list DetalleRow) : option Z :=
  match rows with
  | [] => None
  | _ => Some (foldr (fun r acc => dr_importe r + acc) 0 rows)
  end.

(** Python's [x or 0] on an optional decimal. *)
Definition or_0 (x : option Z) : Z :=
  match x with
  | Some z => if z =? 0 then 0 else z
  | None => 0
  end.

Definition calcular_importe_total (self : Venta) : M Venta :=
  match v_pk self with
  | None => raise ValueError
  | Some k =>
      let* d := get_db in
      let total := or_0 (aggregate_Sum_importe (detalleventa_set k d)) in
      Venta_save (set_importe_total self total) true
  end.

(** ** [DetalleVenta.save] *)

Definition set_dv_pk (l : DetalleVenta) (k : option Z) : DetalleVenta :=
  mkDetalleVenta k (venta l) (producto l) (cantidad l) (precio_unitario l)
                 (importe l) (hora l).

Definition set_venta (l : DetalleVenta) (v : option Venta) : DetalleVenta :=
  mkDetalleVenta (dv_pk l) v (producto l) (cantidad l) (precio_unitario l)
                 (importe l) (hora l).

Definition set_precio_unitario (l : DetalleVenta) (x : option Z) : DetalleVenta :=
  mkDetalleVenta (dv_pk l) (venta l) (producto l) (cantidad l) x
                 (importe l) (hora l).

Definition set_importe (l : DetalleVenta) (x : Z) : DetalleVenta :=
  mkDetalleVenta (dv_pk l) (venta l) (producto l) (cantidad l)
                 (precio_unitario l) x (hora l).

(** Truth value of an optional number in an [if]: [None] and zero are
    both false. *)
Definition truthy (x : option Z) : bool :=
  match x with
  | Some z => negb (z =? 0)
  | None => false
  end.

Definition update_detalle (r : DetalleRow) (ls : list DetalleRow) : list DetalleRow :=
  (fun x => if dr_id x =? dr_id r then r else x) <$> ls.

(** The key of a related object for a foreign-key column: [None] for no
    object, an error for an object that was never stored. *)
Definition fk_venta (v : option Venta) : Result (option Z) :=
  match v with
  | None => Ok None
  | Some o => match v_pk o with Some k => Ok (Some k) | None => Err ValueError end
  end.

Definition fk_producto (p : option Producto) : Result (option Z) :=
  match p with
  | None => Ok None
  | Some o => match p_pk o with Some k => Ok (Some k) | None => Err ValueError end
  end.

Definition lift {A} (r : Result A) : M A := fun w => (r, w).

(** The row write of [super().save()] for a sale line, with the
    [created] flag the storage layer reports to [post_save]. The backend
    refuses a negative [cantidad] ([PositiveIntegerField]) and an amount
    of more than ten digits; those checks are not made here, see the
    conventions above. *)
Definition DetalleVenta_write (self : DetalleVenta) : M (DetalleVenta * bool) :=
  let* vid := lift (fk_venta (venta self)) in
  let* pid := lift (fk_producto (producto self)) in
  match precio_unitario self with
  | None => raise IntegrityError
  | Some pu =>
      let* d := get_db in
      match dv_pk self with
      | None =>
          let k := seq_detalle d in
          let r := mkDetalleRow k vid pid (cantidad self) pu (importe self) (hora self) in
          let* _ := put_db (with_detalles d (detalles d ++ [r]) (k + 1)) in
          ret (set_dv_pk self (Some k), true)
      | Some k =>
          let r := mkDetalleRow k vid pid (cantidad self) pu (importe self) (hora self) in
          if existsb (fun x => dr_id x =? k) (detalles d) then
            let* _ := put_db (with_detalles d (update_detalle r (detalles d))
                                            (seq_detalle d)) in
            ret (self, false)
          else
            let* _ := put_db (with_detalles d (detalles d ++ [r])
                                            (Z.max (seq_detalle d) (k + 1))) in
            ret (self, true)
      end
  end.

(** [super().save()]: the write, then the [post_save] receivers. *)
Definition DetalleVenta_super_save (self : DetalleVenta) : M DetalleVenta :=
  let* sc := DetalleVenta_write self in
  actualizar_stock_post_venta sc.1 sc.2.

(** The two assignments that open [DetalleVenta.save]. *)
Definition congelar_precio (self : DetalleVenta) : DetalleVenta :=
  match dv_pk self, producto self with
  | None, Some p => set_precio_unitario self (Some (precio p))
  | _, _ => self
  end.

Definition calcular_importe (self : DetalleVenta) : DetalleVenta :=
  if truthy (cantidad self) && truthy (precio_unitario self) then
    match cantidad self, precio_unitario self with
    | Some q, Some pu => set_importe self (q * pu)
    | _, _ => self
    end
  else self.

Definition DetalleVenta_save (self : DetalleVenta) : M DetalleVenta :=
  let self1 := congelar_precio self in
  let self2 := calcular_importe self1 in
  let* self3 := DetalleVenta_super_save self2 in
  match venta self3 with
  | Some v =>
      let* v' := calcular_importe_total v in
      ret (set_venta self3 (Some v'))
  | None => ret self3
  end.

(** ** [forms.py]: [DetalleVentaForm.clean_cantidad] *)

(** The argument is [self.cleaned_data.get('cantidad')]. *)
Definition clean_cantidad (cantidad : option Z) : Result Z :=
  match cantidad with
  | None => Err ValidationError
  | Some q => if q <=? 0 then Err ValidationError else Ok q
  end.

(** ** [views.py]: [venta_agregar] and [venta_anular] *)

(** Python's [int(s)] on a text in base ten: surrounding blanks (tab,
    line feed, vertical tab, form feed, carriage return, space) are
    dropped, one sign is allowed, digits may be grouped by single
    underscores. Python also reads the decimal digits and the blanks of
    other scripts; texts are byte strings here and those characters are
    not decoded, so a text with a character outside ASCII is answered
    with [NonAsciiText], which stands for no answer. *)
Definition is_space (c : ascii) : bool :=
  let n := Z.of_N (N_of_ascii c) in
  ((9 <=? n) && (n <=? 13)) || (n =? 32).

Definition isascii (s : string) : bool :=
  forallb (fun c => Z.of_N (N_of_ascii c) <? 128) (list_ascii_of_string s).

Definition digit_val (c : ascii) : option Z :=
  let n := Z.of_N (N_of_ascii c) in
  if (48 <=? n) && (n <=? 57) then Some (n - 48) else None.

Fixpoint parse_digits (acc : Z) (after_digit : bool) (cs : list ascii) : option Z :=
  match cs with
  | [] => if after_digit then Some acc else None
  | c :: cs' =>
      if Ascii.eqb c "_"%char then
        if after_digit then parse_digits acc false cs' else None
      else
        match digit_val c with
        | Some v => parse_digits (10 * acc + v) true cs'
        | None => None
        end
  end.

Fixpoint lstrip (cs : list ascii) : list ascii :=
  match cs with
  | c :: cs' => if is_space c then lstrip cs' else cs
  | [] => []
  end.

Definition strip (cs : list ascii) : list ascii :=
  rev (lstrip (rev (lstrip cs))).

Definition int (s : string) : Result Z :=
  if negb (isascii s) then Err NonAsciiText else
  let parsed :=
    match strip (list_ascii_of_string s) with
    | c :: cs =>
        if Ascii.eqb c "-"%char then Z.opp <$> parse_digits 0 false cs
        else if Ascii.eqb c "+"%char then parse_digits 0 false cs
        else parse_digits 0 false (c :: cs)
    | [] => None
    end in
  match parsed with
  | Some z => Ok z
  | None => Err ValueError
  end.

Record Request := mkRequest {
  method : string;
  post_cliente : string;          (* POST['cliente'] *)
  post_medio_de_pago : string;    (* POST['medio_de_pago'] *)
  post_producto : list string;    (* POST.getlist('producto[]') *)
  post_cantidad : list string;    (* POST.getlist('cantidad[]') *)
  ahora : Z                       (* timezone.now() while the request runs *)
}.

Inductive Response :=
| redirect (name : string)
| render (template : string).

(** A model choice field of [VentaForm]: the text must be the key of a
    stored record; both fields are required. A text that [int] refuses
    is an invalid choice ([None]); a text the model does not read is
    passed on as such. *)
Definition clean_choice (s : string) (keys : gset Z) : Result (option Z) :=
  match int s with
  | Ok k => Ok (if bool_decide (k ∈ keys) then Some k else None)
  | Err NonAsciiText => Err NonAsciiText
  | Err _ => Ok None
  end.

(** [venta_form.is_valid()], giving the cleaned data when valid. *)
Definition VentaForm_is_valid (req : Request) (d : DB) : Result (option (Z * Z)) :=
  match clean_choice (post_cliente req) (clientes d),
        clean_choice (post_medio_de_pago req) (medios d) with
  | Ok (Some c), Ok (Some m) => Ok (Some (c, m))
  | Err e, _ => Err e
  | _, Err e => Err e
  | _, _ => Ok None
  end.

(** [venta_form.save()]: a new sale with the model defaults, saved. *)
Definition VentaForm_save (cm : Z * Z) (now : Z) : M Venta :=
  Venta_save (mkVenta None now EmptyString (Some cm.1) (Some cm.2) 0 false) false.

(** [get_object_or_404(Producto, id=producto_id)] *)
Definition get_Producto_or_404 (producto_id : string) : M Producto :=
  let* k := lift (int producto_id) in
  let* d := get_db in
  match productos d !! k with
  | Some p => ret p
  | None => raise Http404
  end.

(** [get_object_or_404(Venta, pk=pk)] *)
Definition get_Venta_or_404 (pk : Z) : M Venta :=
  let* d := get_db in
  match ventas d !! pk with
  | Some v => ret v
  | None => raise Http404
  end.

(** [DetalleVenta.objects.create(venta=..., producto=..., cantidad=...,
    precio_unitario=...)]: the remaining fields take their defaults. *)
Definition DetalleVenta_objects_create
    (v : Venta) (p : Producto) (q : Z) (pu : Z) (now : Z) : M DetalleVenta :=
  DetalleVenta_save (mkDetalleVenta None (Some v) (Some p) (Some q) (Some pu) 0 now).

(** The [for] loop of [venta_agregar] over [zip(productos_ids, cantidades)].
    The one sale object is shared by all the lines, so the object a line
    comes back with is the one given to the next line. *)
Fixpoint agregar_detalles (v : Venta) (pares : list (string * string)) (now : Z)
  : M unit :=
  match pares with
  | [] => ret tt
  | (producto_id, cantidad) :: resto =>
      let* p := get_Producto_or_404 producto_id in
      let* q := lift (int cantidad) in
      let* l := DetalleVenta_objects_create v p q (precio p) now in
      match venta l with
      | Some v' => agregar_detalles v' resto now
      | None => agregar_detalles v resto now
      end
  end.

Definition venta_agregar (request : Request) : M Response :=
  atomic
    (if String.eqb (method request) "POST" then
       let* d := get_db in
       let* valid := lift (VentaForm_is_valid request d) in
       match valid with
       | Some cm =>
           let* v := VentaForm_save cm (ahora request) in
           let* _ := agregar_detalles v
                       (zip (post_producto request) (post_cantidad request))
                       (ahora request) in
           ret (redirect "venta_lista")
       | None => ret (render "ventas/venta_agregar.html")
       end
     else ret (render "ventas/venta_agregar.html")).

(** The [for] loop of [venta_anular]: [detalle.producto] is read from the
    store when the line is reached. *)
Fixpoint revertir_stock (lineas : list DetalleRow) : M unit :=
  match lineas with
  | [] => ret tt
  | detalle :: resto =>
      match dr_producto_id detalle with
      | None => raise AttributeError
      | Some pid =>
          let* d := get_db in
          match productos d !! pid with
          | None => raise DoesNotExist
          | Some p =>
              match dr_cantidad detalle with
              | None => raise TypeError
              | Some q =>
                  let* _ := Producto_save
                              (set_cantidad_stock p (cantidad_stock p + q)) in
                  revertir_stock resto
              end
          end
      end
  end.

Definition venta_anular (request : Request) (pk : Z) : M Response :=
  let* v := get_Venta_or_404 pk in
  if String.eqb (method request) "POST" then
    let* v1 := Venta_save (set_anulada v true) false in
    let* d := get_db in
    let* _ := revertir_stock (detalleventa_set pk d) in
    ret (redirect "venta_lista")
  else ret (render "ventas/venta_anular.html").


(** ** Removal of rows *)


(** [DetalleFactura.objects.filter(producto=pid).exists()] *)
Definition facturado (pid : Z) (d : DB) : bool :=
  existsb (fun r => bool_decide (df_producto_id r = Some pid)) (detalles_factura d).

(** [producto.delete()]: the foreign key of invoice lines to the product
    is declared [on_delete=PROTECT], so a product on an invoice line is
    refused with [ProtectedError] before anything is removed; the foreign
    keys of sale lines and of stock movements are declared
    [on_delete=CASCADE], so their rows go with the product. (Order lines,
    which go with it as well, are outside this store.) *)
Definition Producto_delete (pid : Z) : M unit :=
  let* d := get_db in
  if facturado pid d then raise ProtectedError
  else
    put_db (mkDB (clientes d) (medios d) (delete pid (productos d)) (ventas d)
                 (List.filter (fun r => negb (bool_decide (dr_producto_id r = Some pid)))
                              (detalles d))
                 (List.filter (fun r => negb (mr_producto_id r =? pid))
                              (movimientos d))
                 (seq_producto d) (seq_venta d) (seq_detalle d) (seq_mov d)
                 (detalles_factura d)).

(** [views.productos_confirm_delete] *)
Definition productos_confirm_delete (request : Request) (pk : Z) : M Response :=
  let* d := get_db in
  match productos d !! pk with
  | None => raise Http404
  | Some _ =>
      if String.eqb (method request) "POST" then
        let* _ := Producto_delete pk in
        ret (redirect "productos_list")
      else ret (render "productos/productos_confirm_delete.html")
  end.
(** ** Derived notions used in the statements *)

(** The product object after [MovimientoStock.save]. *)
Definition producto_tras_movimiento (t : string) (p : Producto) (q : Z) : Producto :=
  if String.eqb t "entrada" then set_cantidad_stock p (cantidad_stock p + q) else p.

(** ** A small shop used in the examples *)

Definition martillo : Producto := mkProducto (Some 1) "Martillo" 10000 10.

Definition tienda : DB :=
  mkDB {[7]} {[2]} {[1 := martillo]} ∅ [] [] 2 1 1 1 [].

Definition mundo : World := mkWorld tienda [1234567890123; 1234567890124].

Definition entrada_martillo : MovimientoStock :=
  mkMovimientoStock None (Some martillo) "entrada" (Some 5) None.

(** The stored state after the stock effect of a new line of a sale that
    is not void: the movement table and the product table. *)
Definition movimientos_tras_venta (v : Venta) (pid q : Z) (d : DB) : list MovRow :=
  if mov_exists (etiqueta v) pid (movimientos d) then movimientos d
  else movimientos d ++ [mkMovRow (seq_mov d) pid "salida" q (Some (etiqueta v))].

Definition seq_mov_tras_venta (v : Venta) (pid : Z) (d : DB) : Z :=
  if mov_exists (etiqueta v) pid (movimientos d) then seq_mov d else seq_mov d + 1.

Definition db_tras_venta (v : Venta) (p : Producto) (pid q : Z) (d : DB) : DB :=
  with_productos
    (with_movimientos d (movimientos_tras_venta v pid q d)
                      (seq_mov_tras_venta v pid d))
    (<[pid := set_cantidad_stock p (cantidad_stock p - q)]> (productos d))
    (Z.max (seq_producto d) (pid + 1)).


(** Sum of the stored subtotals of a list of lines. *)
Definition suma_importes (rows : list DetalleRow) : Z :=
  foldr (fun r acc => dr_importe r + acc) 0 rows.

(** The sale table after only the total of sale [k] was written. *)
Definition db_con_total (k : Z) (row : Venta) (total : Z) (d : DB) : DB :=
  with_ventas d (<[k := set_importe_total row total]> (ventas d)) (seq_venta d).

(** A stored row carries the fields of a line object. *)
Definition fila_de (l : DetalleVenta) (r : DetalleRow) : Prop :=
  dv_pk l = Some (dr_id r)
  /\ precio_unitario l = Some (dr_precio_unitario r)
  /\ importe l = dr_importe r
  /\ cantidad l = dr_cantidad r
  /\ fk_venta (venta l) = Ok (dr_venta_id r)
  /\ fk_producto (producto l) = Ok (dr_producto_id r).







(** A request that adds one sale of three hammers, and the shop after it. *)
Definition pedido_martillos : Request :=
  mkRequest "POST" "7" "2" ["1"] ["3"] 1000.

Definition mundo_vendido : World := (venta_agregar pedido_martillos mundo).2.

(** An outbound movement of one hammer that holds the hammer as it was
    before that sale, with ten in stock. *)
Definition salida_martillo : MovimientoStock :=
  mkMovimientoStock None (Some martillo) "salida" (Some 1) None.

(** A new line of two more hammers on a sale that is not stored yet
    under key 1 in [mundo], and on the stored sale of [mundo_vendido]. *)
Definition venta_martillos : Venta :=
  mkVenta (Some 1) 1000 "1234567890123" (Some 7) (Some 2) 30000 false.

Definition linea_nueva : DetalleVenta :=
  mkDetalleVenta None (Some venta_martillos) (Some (mkProducto (Some 1) "Martillo" 10000 7))
                 (Some 2) (Some 10000) 0 1001.

(** The value of a finished run, with a default for the failed ones. *)
Definition valor {A} (x : Result A * World) (def : A) : A :=
  match x.1 with
  | Ok a => a
  | Err _ => def
  end.

Definition linea_guardada : DetalleVenta :=
  valor (DetalleVenta_save linea_nueva mundo_vendido) linea_nueva.

Definition mundo_tras_linea : World :=
  (DetalleVenta_save linea_nueva mundo_vendido).2.

(** The product of the sale is deleted through its view afterwards. *)
Definition borrar_martillo : Request := mkRequest "POST" EmptyString EmptyString [] [] 2000.


(** A stored sale without lines, and a line of three hammers for it. *)
Definition mundo_con_venta : World :=
  mkWorld (with_ventas tienda {[1 := venta_martillos]} 2) [].

Definition linea_martillos : DetalleVenta :=
  mkDetalleVenta (Some 1) (Some venta_martillos) (Some martillo)
                 (Some 3) (Some 10000) 30000 1000.

(** The quantity the lines [rows] give back to product [pid]. *)
Definition cantidad_devuelta (pid : Z) (rows : list DetalleRow) : Z :=
  foldr (fun r acc =>
           (if bool_decide (dr_producto_id r = Some pid)
            then default 0 (dr_cantidad r) else 0) + acc)
        0 rows.

(** The quantity the stored lines of sale [k] carry for product [pid],
    read off the rows of the line table. *)
Definition cantidad_de_venta (k pid : Z) (rows : list DetalleRow) : Z :=
  foldr (fun r acc =>
           (if bool_decide (dr_venta_id r = Some k)
               && bool_decide (dr_producto_id r = Some pid)
            then default 0 (dr_cantidad r) else 0) + acc)
        0 rows.

(** A line whose product is stored under its own key and whose quantity
    is set. *)
Definition linea_revertible (ps : gmap Z Producto) (r : DetalleRow) : bool :=
  match dr_producto_id r, dr_cantidad r with
  | Some pid, Some _ =>
      match ps !! pid with
      | Some p => bool_decide (p_pk p = Some pid)
      | None => false
      end
  | _, _ => false
  end.

Definition devolver (n : Z) (p : Producto) : Producto :=
  set_cantidad_stock p (cantidad_stock p + n).

(** The request that voids the sale of the example. *)
Definition anular_venta : Request := mkRequest "POST" EmptyString EmptyString [] [] 3000.

(** A text made of decimal digits only. *)
Definition es_digito (c : ascii) : bool :=
  let n := Z.of_N (N_of_ascii c) in (48 <=? n) && (n <=? 57).

Fixpoint solo_digitos (s : string) : bool :=
  match s with
  | EmptyString => true
  | String c s' => es_digito c && solo_digitos s'
  end.

(** A new sale as [VentaForm.save] builds it. *)
Definition venta_nueva : Venta := mkVenta None 1000 EmptyString (Some 7) (Some 2) 0 false.

(** The shop after the sale, when the generator first repeats the number
    of that sale. *)
Definition mundo_con_choque : World :=
  mkWorld (db mundo_vendido) [1234567890123; 1234567890124].

(** The stored line of three hammers with its quantity edited to zero. *)
Definition linea_cero : DetalleVenta :=
  mkDetalleVenta (Some 1) (Some venta_martillos)
                 (Some (mkProducto (Some 1) "Martillo" 10000 7))
                 (Some 0) (Some 10000) 30000 1000.

Definition mundo_tras_linea_cero : World :=
  (DetalleVenta_save linea_cero mundo_vendido).2.

(** A request that adds a sale with a line of quantity zero. *)
Definition pedido_cero : Request :=
  mkRequest "POST" "7" "2" ["1"] ["0"] 1000.

Definition mundo_tras_pedido_cero : World := (venta_agregar pedido_cero mundo).2.

(** The hammer repriced to 150.00 and saved, and the stored line of the
    sale saved again with the repriced product attached. *)
Definition martillo_caro : Producto := mkProducto (Some 1) "Martillo" 15000 7.

Definition mundo_con_precio_nuevo : World := (Producto_save martillo_caro mundo_vendido).2.

Definition linea_con_producto_caro : DetalleVenta :=
  mkDetalleVenta (Some 1) (Some venta_martillos) (Some martillo_caro)
                 (Some 3) (Some 10000) 30000 1000.

(** ** Further examples *)

(** The sale of the example after it was voided, and one more line for it. *)
Definition mundo_anulado : World := (venta_anular anular_venta 1 mundo_vendido).2.

Definition venta_martillos_anulada : Venta := set_anulada venta_martillos true.



(** No two stored sales share a receipt number; every stored sale has one. *)
Definition numeros_unicos (vs : gmap Z Venta) : Prop :=
  forall k1 k2 v1 v2,
    vs !! k1 = Some v1 -> vs !! k2 = Some v2 ->
    numero_comprobante v1 = numero_comprobante v2 -> k1 = k2.

Definition con_numero (vs : gmap Z Venta) : Prop :=
  forall k v, vs !! k = Some v -> numero_comprobante v <> EmptyString.

(** A movement that lacks its product. *)
Definition movimiento_sin_producto : MovimientoStock :=
  mkMovimientoStock None None "entrada" (Some 5) None.

(** The sale of the example with a second stored line that has no product. *)
Definition mundo_con_linea_sin_producto : World :=
  mkWorld (with_detalles (db mundo_vendido)
             (detalles (db mundo_vendido)
                ++ [mkDetalleRow 2 (Some 1) None (Some 1) 500 500 1001])
             3)
          [].

(** The shop after the sale, with the hammer on a line of an invoice. *)
Definition mundo_facturado : World :=
  mkWorld
    (mkDB (clientes (db mundo_vendido)) (medios (db mundo_vendido))
          (productos (db mundo_vendido)) (ventas (db mundo_vendido))
          (detalles (db mundo_vendido)) (movimientos (db mundo_vendido))
          (seq_producto (db mundo_vendido)) (seq_venta (db mundo_vendido))
          (seq_detalle (db mundo_vendido)) (seq_mov (db mundo_vendido))
          [mkDetalleFacturaRow 1 1 (Some 1) 2 10000])
    [].

(** A request for two lines whose second product is not stored. *)
Definition pedido_con_producto_ajeno : Request :=
  mkRequest "POST" "7" "2" ["1"; "99"] ["3"; "1"] 1000.

Definition set_post_producto (r : Request) (ps : list string) : Request :=
  mkRequest (method r) (post_cliente r) (post_medio_de_pago r) ps
            (post_cantidad r) (ahora r).

Definition set_post_cantidad (r : Request) (qs : list string) : Request :=
  mkRequest (method r) (post_cliente r) (post_medio_de_pago r) (post_producto r)
            qs (ahora r).

(** A request whose client is not stored. *)
Definition pedido_de_desconocido : Request :=
  mkRequest "POST" "8" "2" ["1"] ["3"] 1000.




(** ** [views.py]: [VentaListView.get_queryset] *)

(** Ordering by [-fecha]: the later sale comes first. *)
Definition mas_reciente (a b : Venta) : Prop := fecha b <= fecha a.

#[global] Instance mas_reciente_dec (a b : Venta) : Decision (mas_reciente a b) :=
  decide (fecha b <= fecha a).

Section VentaListView.
(** What the search takes from libraries and from the client table:
    [datetime.strptime(query, '%d-%m-%y').date()], [None] when it raises
    [ValueError]; the lookup [fecha=] of a timestamp against that date;
    the case-insensitive containment test [icontains]; and the name of
    the stored client with a given key. *)
Variable strptime_fecha : string -> option Z.
Variable fecha_igual : Z -> Z -> bool.
Variable icontains : string -> string -> bool.
Variable nombre_de_cliente : Z -> option string.

(** [Q(cliente__nombre__icontains=query) | Q(numero_comprobante__icontains=query)] *)
Definition coincide_texto (query : string) (v : Venta) : bool :=
  match cliente v with
  | Some c =>
      match nombre_de_cliente c with
      | Some nm => icontains nm query
      | None => false
      end
  | None => false
  end
  || icontains (numero_comprobante v) query.

(** The sales that are not void, latest first (sales of one and the
    same date in the order the sort leaves them), narrowed by the search
    text [q] of the request when there is one. *)
Definition VentaListView_get_queryset (q : option string) (d : DB) : list Venta :=
  let queryset :=
    merge_sort mas_reciente
      (List.filter (fun v => negb (anulada v)) (snd <$> map_to_list (ventas d))) in
  match q with
  | None => queryset
  | Some EmptyString => queryset
  | Some query =>
      match strptime_fecha query with
      | Some fecha_buscada =>
          List.filter (fun v => fecha_igual (fecha v) fecha_buscada) queryset
      | None => List.filter (coincide_texto query) queryset
      end
  end.
End VentaListView.

(** Every stored sale carries the key it is stored under. *)
Definition claves_propias (vs : gmap Z Venta) : Prop :=
  forall k v, vs !! k = Some v -> v_pk v = Some k.

(** A search that never reads a date and looks for the text in the
    receipt number only, for the examples. *)
Definition sin_fechas (s : string) : option Z := None.
Definition misma_fecha (a b : Z) : bool := a =? b.
Definition contiene (texto parte : string) : bool :=
  if decide (String.length parte <= String.length texto)%nat
  then String.eqb (substring 0 (String.length parte) texto) parte
  else false.
Definition sin_nombres (c : Z) : option string := None.

(** ** [views.py]: [clienteCompras.get_queryset] *)

(** The outcomes of the view: the list, a 404 for a client that is not
    stored, or the [FieldError] of a lookup on a field the model lacks. *)
Inductive Compras :=
| compras (l : list Venta)
| compras_404
| compras_FieldError.

(** The sales of the client of the URL. With a search text the view
    filters on [titulo] and [de], which are not fields of [Venta], so the
    call to [filter] raises. *)
Definition clienteCompras_get_queryset (pk : Z) (q : option string) (d : DB)
  : Compras :=
  if bool_decide (pk ∈ clientes d) then
    let queryset :=
      List.filter (fun v => bool_decide (cliente v = Some pk))
                  (snd <$> map_to_list (ventas d)) in
    match q with
    | None => compras queryset
    | Some EmptyString => compras queryset
    | Some _ => compras_FieldError
    end
  else compras_404.

(** ** [create_categories_and_providers.py] *)

(** A table of named records (categories, suppliers); the columns other
    than the name take their defaults and are left out. *)
Record Nombrado := mkNombrado {
  n_id : Z;
  n_nombre : string
}.

Record Tabla := mkTabla {
  filas : list Nombrado;
  seq_tabla : Z
}.

(** [objects.get_or_create(nombre=nombre)]: the one row with that name if
    there is one, a new row if there is none; with several such rows the
    call raises [MultipleObjectsReturned] ([inr], with the table as it
    is). *)
Definition get_or_create (nombre : string) (t : Tabla) : Tabla + Tabla :=
  match List.filter (fun r => String.eqb (n_nombre r) nombre) (filas t) with
  | [] => inl (mkTabla (filas t ++ [mkNombrado (seq_tabla t) nombre])
                       (seq_tabla t + 1))
  | [_] => inl t
  | _ => inr t
  end.

(** [for nombre in nombres: get_or_create(nombre=nombre)] *)
Fixpoint sembrar (nombres : list string) (t : Tabla) : Tabla + Tabla :=
  match nombres with
  | [] => inl t
  | nombre :: resto =>
      match get_or_create nombre t with
      | inl t' => sembrar resto t'
      | inr t' => inr t'
      end
  end.

Definition categorias_nombres : list string :=
  ["Herramientas Manuales"; "Herramientas Eléctricas"; "Equipos de Seguridad";
   "Materiales de Construcción"; "Pinturas y Acabados"; "Fontanería";
   "Electricidad"; "Jardinería"; "Adhesivos y Selladores"; "Ferretería General"].

Definition proveedores_nombres : list string :=
  ["Proveedor A"; "Proveedor B"; "Proveedor C"; "Proveedor D"; "Proveedor E"].

(** The script: the categories first, then the suppliers; an exception
    in the first loop ends the script before the second. *)
Definition create_categories_and_providers (cp : Tabla * Tabla)
  : (Tabla * Tabla) + (Tabla * Tabla) :=
  match sembrar categorias_nombres cp.1 with
  | inl c' =>
      match sembrar proveedores_nombres cp.2 with
      | inl p' => inl (c', p')
      | inr p' => inr (c', p')
      end
  | inr c' => inr (c', cp.2)
  end.

Definition nombres_de (t : Tabla) : list string := n_nombre <$> filas t.

Definition tabla_vacia : Tabla := mkTabla [] 1.

(** * Properties *)

(** ** Running the monad *)

Ltac run_monad :=
  unfold bind, ret, raise, lift, get_db, put_db; simpl.

Lemma Producto_save_stored (p : Producto) (k : Z) (w : World) :
  p_pk p = Some k ->
  Producto_save p w =
    (Ok p, mkWorld (with_productos (db w) (<[k := p]> (productos (db w)))
                                   (Z.max (seq_producto (db w)) (k + 1)))
                   (draws w)).
Proof.
  intros Hk. unfold Producto_save. run_monad. rewrite Hk. reflexivity.
Qed.

(** ** Stock movement ledger *)

Lemma update_mov_elem (r : MovRow) (ms : list MovRow) :
  existsb (fun x => mr_id x =? mr_id r) ms = true ->
  r ∈ update_mov r ms.
Proof.
  unfold update_mov. induction ms as [|x ms IH]; simpl; intros H.
  - discriminate.
  - destruct (mr_id x =? mr_id r) eqn:E.
    + apply list_elem_of_here.
    + apply list_elem_of_further. apply IH. exact H.
Qed.

Lemma MovimientoStock_super_save_ok (m : MovimientoStock) (p : Producto) (pid q : Z)
    (w : World) :
  ms_producto m = Some p -> p_pk p = Some pid -> ms_cantidad m = Some q ->
  exists k w',
    MovimientoStock_super_save m w = (Ok (set_ms_pk m (Some k)), w')
    /\ mkMovRow k pid (tipo m) q (comprobante m) ∈ movimientos (db w')
    /\ productos (db w') = productos (db w)
    /\ seq_producto (db w') = seq_producto (db w)
    /\ draws w' = draws w.
Proof.
  intros Hp Hpid Hq. unfold MovimientoStock_super_save. run_monad.
  rewrite Hp, Hpid, Hq. destruct (ms_pk m) as [k|] eqn:Hk.
  - exists k. eexists. split.
    + f_equal. f_equal. unfold set_ms_pk. destruct m; simpl in *; congruence.
    + simpl. repeat split.
      destruct (existsb (fun x => mr_id x =? k) (movimientos (db w))) eqn:E.
      * apply (update_mov_elem (mkMovRow k pid (tipo m) q (comprobante m))).
        exact E.
      * apply elem_of_app. right. apply list_elem_of_here.
  - exists (seq_mov (db w)). eexists. split; [reflexivity|].
    simpl. repeat split. apply elem_of_app. right. apply list_elem_of_here.
Qed.

Lemma MovimientoStock_save_ok (m : MovimientoStock) (p : Producto) (pid q : Z)
    (w : World) :
  ms_producto m = Some p -> p_pk p = Some pid -> ms_cantidad m = Some q ->
  exists k m' w',
    MovimientoStock_save m w = (Ok m', w')
    /\ ms_pk m' = Some k
    /\ mkMovRow k pid (tipo m) q (comprobante m) ∈ movimientos (db w')
    /\ ms_producto m' = Some (producto_tras_movimiento (tipo m) p q)
    /\ productos (db w') =
         <[pid := producto_tras_movimiento (tipo m) p q]> (productos (db w))
    /\ draws w' = draws w.
Proof.
  intros Hp Hpid Hq.
  destruct (MovimientoStock_super_save_ok m p pid q w Hp Hpid Hq)
    as (k & w1 & Hrun & Hin & Hps & Hseq & Hd).
  unfold MovimientoStock_save, bind at 1. rewrite Hrun. simpl.
  rewrite Hp, Hq. fold (producto_tras_movimiento (tipo m) p q).
  unfold bind at 1.
  rewrite (Producto_save_stored _ pid).
  2:{ unfold producto_tras_movimiento. destruct (String.eqb _ _); simpl; exact Hpid. }
  exists k. eexists. eexists. split; [reflexivity|].
  simpl. rewrite Hps. repeat split; assumption.
Qed.

(** C7, as amended. Saving a stock movement stores the movement. When its
    direction is ['entrada'] its quantity is added to the quantity of the
    product object, and for no other direction; in every direction the
    product object is then stored as it stands, with its key, name and
    price, and no other product is written. So for a direction other
    than ['entrada'] the stored quantity becomes that of the product
    object: a product whose row equals the object is left as it was.
    The quantity that is written is assumed not to be negative, as the
    column requires. *)
Theorem MovimientoStock_save_spec (m : MovimientoStock) (p : Producto) (pid q : Z)
    (w : World) :
  ms_producto m = Some p -> p_pk p = Some pid -> ms_cantidad m = Some q ->
  0 <= cantidad_stock p + (if String.eqb (tipo m) "entrada" then q else 0) ->
  exists k m' w' p',
    MovimientoStock_save m w = (Ok m', w')
    /\ ms_pk m' = Some k
    /\ mkMovRow k pid (tipo m) q (comprobante m) ∈ movimientos (db w')
    /\ ms_producto m' = Some p'
    /\ productos (db w') !! pid = Some p'
    /\ p_pk p' = Some pid /\ nombre p' = nombre p /\ precio p' = precio p
    /\ (tipo m = "entrada" -> cantidad_stock p' = cantidad_stock p + q)
    /\ (tipo m <> "entrada" -> cantidad_stock p' = cantidad_stock p)
    /\ (tipo m <> "entrada" -> productos (db w) !! pid = Some p ->
        productos (db w') = productos (db w))
    /\ (forall j, j <> pid -> productos (db w') !! j = productos (db w) !! j).
Proof.
  intros Hp Hpid Hq _.
  destruct (MovimientoStock_save_ok m p pid q w Hp Hpid Hq)
    as (k & m' & w' & Hrun & Hk & Hin & Hobj & Hps & _).
  exists k, m', w', (producto_tras_movimiento (tipo m) p q).
  split; [exact Hrun|]. split; [exact Hk|]. split; [exact Hin|].
  split; [exact Hobj|].
  split; [rewrite Hps; apply lookup_insert_eq|].
  unfold producto_tras_movimiento.
  split; [destruct (String.eqb (tipo m) "entrada"); exact Hpid|].
  split; [destruct (String.eqb (tipo m) "entrada"); reflexivity|].
  split; [destruct (String.eqb (tipo m) "entrada"); reflexivity|].
  split; [intros E; rewrite (proj2 (String.eqb_eq _ _) E); reflexivity|].
  split; [intros E; rewrite (proj2 (String.eqb_neq _ _) E); reflexivity|].
  split.
  - intros E Hrow. rewrite Hps. fold (producto_tras_movimiento (tipo m) p q).
    unfold producto_tras_movimiento.
    rewrite (proj2 (String.eqb_neq _ _) E). apply insert_id. exact Hrow.
  - intros j Hj. rewrite Hps. apply lookup_insert_ne. congruence.
Qed.

Lemma MovimientoStock_save_spec_witness :
  exists k m' w' p',
    MovimientoStock_save entrada_martillo mundo = (Ok m', w')
    /\ ms_pk m' = Some k
    /\ mkMovRow k 1 "entrada" 5 None ∈ movimientos (db w')
    /\ ms_producto m' = Some p'
    /\ productos (db w') !! 1 = Some p'
    /\ p_pk p' = Some 1 /\ nombre p' = "Martillo" /\ precio p' = 10000
    /\ (tipo entrada_martillo = "entrada" -> cantidad_stock p' = 10 + 5)
    /\ (tipo entrada_martillo <> "entrada" -> cantidad_stock p' = 10)
    /\ (tipo entrada_martillo <> "entrada" ->
        productos (db mundo) !! 1 = Some martillo ->
        productos (db w') = productos (db mundo))
    /\ (forall j, j <> 1 -> productos (db w') !! j = productos (db mundo) !! j).
Proof.
  apply (MovimientoStock_save_spec entrada_martillo martillo 1 5 mundo);
    [reflexivity | reflexivity | reflexivity | simpl; lia].
Defined.

(** C7, counterexample: an outbound movement of one hammer is saved with
    a copy of the hammer that was read before the sale of three, when
    ten were in stock. The movement is stored and the stored quantity
    goes from seven to ten: the save of the movement wrote the product. *)
Lemma salida_con_copia_vieja :
  exists m' w',
    MovimientoStock_save salida_martillo mundo_vendido = (Ok m', w')
    /\ tipo salida_martillo = "salida"
    /\ cantidad_stock <$> productos (db mundo_vendido) !! 1 = Some 7
    /\ cantidad_stock <$> productos (db w') !! 1 = Some 10
    /\ cantidad_stock <$> productos (db w') !! 1
       <> cantidad_stock <$> productos (db mundo_vendido) !! 1
    /\ movimientos (db w')
       = movimientos (db mundo_vendido) ++ [mkMovRow 2 1 "salida" 1 None].
Proof.
  do 2 eexists.
  split; [vm_compute; reflexivity|].
  split; [reflexivity|].
  split; [vm_compute; reflexivity|].
  split; [vm_compute; reflexivity|].
  split; [|vm_compute; reflexivity].
  intros H. vm_compute in H. discriminate H.
Qed.

(** ** Post-sale stock effect *)

Lemma MovimientoStock_save_new (p : Producto) (pid q : Z) (t : string)
    (c : option string) (w : World) :
  p_pk p = Some pid ->
  MovimientoStock_save (mkMovimientoStock None (Some p) t (Some q) c) w =
    (Ok (mkMovimientoStock (Some (seq_mov (db w)))
           (Some (producto_tras_movimiento t p q)) t (Some q) c),
     mkWorld
       (with_productos
          (with_movimientos (db w)
             (movimientos (db w) ++ [mkMovRow (seq_mov (db w)) pid t q c])
             (seq_mov (db w) + 1))
          (<[pid := producto_tras_movimiento t p q]> (productos (db w)))
          (Z.max (seq_producto (db w)) (pid + 1)))
       (draws w)).
Proof.
  intros Hpid. unfold MovimientoStock_save, MovimientoStock_super_save.
  run_monad. rewrite Hpid. simpl.
  fold (producto_tras_movimiento t p q).
  rewrite (Producto_save_stored _ pid).
  2:{ unfold producto_tras_movimiento. destruct (String.eqb _ _); simpl; exact Hpid. }
  reflexivity.
Qed.

(** The hook does nothing on an update, without a sale, or on a void sale. *)
Lemma stock_effect_skipped (l : DetalleVenta) (created : bool) (w : World) :
  created = false \/ venta l = None
  \/ (exists v, venta l = Some v /\ anulada v = true) ->
  actualizar_stock_post_venta l created w = (Ok l, w).
Proof.
  unfold actualizar_stock_post_venta.
  intros [-> | [-> | (v & -> & ->)]]; try reflexivity.
  - destruct (venta l); reflexivity.
  - rewrite andb_false_r. reflexivity.
Qed.

(** The hook on a new line of a sale that is not void. *)
Lemma stock_effect_fires (l : DetalleVenta) (v : Venta) (p : Producto)
    (pid q : Z) (w : World) :
  venta l = Some v -> anulada v = false ->
  producto l = Some p -> p_pk p = Some pid -> cantidad l = Some q ->
  actualizar_stock_post_venta l true w =
    (Ok (set_producto l (Some (set_cantidad_stock p (cantidad_stock p - q)))),
     mkWorld (db_tras_venta v p pid q (db w)) (draws w)).
Proof.
  intros Hv Han Hp Hpid Hq. unfold actualizar_stock_post_venta.
  rewrite Hv, Han, Hp, Hpid, Hq. simpl.
  unfold db_tras_venta, movimientos_tras_venta, seq_mov_tras_venta.
  unfold bind at 1. unfold get_db at 1.
  destruct (mov_exists (etiqueta v) pid (movimientos (db w))) eqn:E.
  - unfold bind at 1. unfold ret at 1.
    unfold bind at 1.
    rewrite (Producto_save_stored _ pid) by exact Hpid.
    unfold ret. destruct w as [d ds]; destruct d; reflexivity.
  - unfold bind at 1. unfold bind at 1.
    rewrite (MovimientoStock_save_new p pid q "salida" _ w Hpid).
    simpl. unfold ret at 1. unfold bind at 1.
    rewrite (Producto_save_stored _ pid) by exact Hpid.
    unfold ret. simpl. rewrite insert_insert_eq.
    f_equal. f_equal. unfold with_productos, with_movimientos. simpl.
    f_equal. lia.
Qed.






(** ** Sale total *)

Lemma or_0_aggregate (rows : list DetalleRow) :
  or_0 (aggregate_Sum_importe rows) = suma_importes rows.
Proof.
  destruct rows as [|r rows]; [reflexivity|].
  unfold aggregate_Sum_importe, or_0. fold (suma_importes (r :: rows)).
  destruct (suma_importes (r :: rows) =? 0) eqn:E; [|reflexivity].
  apply Z.eqb_eq in E. congruence.
Qed.

Lemma Venta_super_save_solo_total_inv (v : Venta) (w : World) (v' : Venta) (w' : World) :
  Venta_super_save v true w = (Ok v', w') ->
  exists k row,
    v_pk v = Some k /\ ventas (db w) !! k = Some row
    /\ db w' = db_con_total k row (importe_total v) (db w)
    /\ draws w' = draws w /\ v' = v.
Proof.
  unfold Venta_super_save. run_monad.
  destruct (v_pk v) as [k|]; [|discriminate].
  destruct (ventas (db w) !! k) as [row|] eqn:Hrow; [|discriminate].
  intros [= <- <-]. exists k, row. simpl. auto.
Qed.

(** Saving with [update_fields=['importe_total']], when it succeeds,
    rewrites the stored total of the sale and nothing else. *)
Lemma Venta_save_solo_total_inv (v : Venta) (w : World) (v' : Venta) (w' : World) :
  Venta_save v true w = (Ok v', w') ->
  exists k row,
    v_pk v = Some k /\ ventas (db w) !! k = Some row
    /\ db w' = db_con_total k row (importe_total v) (db w)
    /\ v_pk v' = Some k /\ importe_total v' = importe_total v
    /\ anulada v' = anulada v.
Proof.
  unfold Venta_save, atomic.
  destruct (numero_comprobante v) eqn:Hn.
  - unfold bind at 1. unfold bind at 1. unfold generar_numero_comprobante.
    destruct (generar_loop (ventas (db w)) (draws w)) as [[n|e] ds]; simpl.
    + destruct (Venta_super_save _ true _) as [[v1|e] w1] eqn:Hs; [|discriminate].
      intros [= <- <-].
      apply Venta_super_save_solo_total_inv in Hs
        as (k & row & Hk & Hrow & Hdb & _ & ->).
      exists k, row. simpl in *. repeat split; auto.
    + discriminate.
  - unfold bind at 1. unfold ret at 1.
    destruct (Venta_super_save _ true _) as [[v1|e] w1] eqn:Hs; [|discriminate].
    intros [= <- <-].
    apply Venta_super_save_solo_total_inv in Hs
      as (k & row & Hk & Hrow & Hdb & _ & ->).
    exists k, row. repeat split; auto.
Qed.


Lemma calcular_importe_total_inv (v : Venta) (w : World) (v' : Venta) (w' : World) :
  calcular_importe_total v w = (Ok v', w') ->
  exists k row,
    v_pk v = Some k /\ ventas (db w) !! k = Some row
    /\ db w' = db_con_total k row (suma_importes (detalleventa_set k (db w))) (db w)
    /\ v_pk v' = Some k
    /\ importe_total v' = suma_importes (detalleventa_set k (db w)).
Proof.
  unfold calcular_importe_total.
  destruct (v_pk v) as [k|] eqn:Hk; [|discriminate].
  unfold bind at 1. unfold get_db at 1. rewrite or_0_aggregate.
  intros H. apply Venta_save_solo_total_inv in H
    as (k' & row & Hk' & Hrow & Hdb & Hpk & Htot & _).
  simpl in *. rewrite Hk in Hk'. injection Hk' as <-.
  exists k, row. repeat split; auto.
Qed.


(** The stored total of sale [k] equals the sum of its stored lines. *)
Lemma db_con_total_sincronizado (k : Z) (row : Venta) (d : DB) :
  importe_total <$> ventas (db_con_total k row (suma_importes (detalleventa_set k d)) d) !! k
  = Some (suma_importes
            (detalleventa_set k
               (db_con_total k row (suma_importes (detalleventa_set k d)) d))).
Proof.
  unfold db_con_total. simpl. rewrite lookup_insert_eq. reflexivity.
Qed.

(** ** Sale lines *)

Lemma update_detalle_elem (r : DetalleRow) (ls : list DetalleRow) :
  existsb (fun x => dr_id x =? dr_id r) ls = true ->
  r ∈ update_detalle r ls.
Proof.
  unfold update_detalle. induction ls as [|x ls IH]; simpl; intros H.
  - discriminate.
  - destruct (dr_id x =? dr_id r) eqn:E.
    + apply list_elem_of_here.
    + apply list_elem_of_further. apply IH. exact H.
Qed.

(** The row write keeps the object apart from its key, touches only the
    line table, and leaves there a row with the fields of the object. *)
Lemma DetalleVenta_write_inv (l : DetalleVenta) (w : World) (l' : DetalleVenta)
    (c : bool) (w' : World) :
  DetalleVenta_write l w = (Ok (l', c), w') ->
  venta l' = venta l /\ producto l' = producto l /\ cantidad l' = cantidad l
  /\ precio_unitario l' = precio_unitario l /\ importe l' = importe l
  /\ (dv_pk l = None -> c = true)
  /\ (forall k, dv_pk l = Some k -> dv_pk l' = Some k)
  /\ ventas (db w') = ventas (db w)
  /\ productos (db w') = productos (db w)
  /\ movimientos (db w') = movimientos (db w)
  /\ draws w' = draws w
  /\ exists r, r ∈ detalles (db w') /\ fila_de l' r.
Proof.
  unfold DetalleVenta_write, fila_de. run_monad.
  destruct (fk_venta (venta l)) as [vid|] eqn:Hv; [|discriminate].
  destruct (fk_producto (producto l)) as [pid|] eqn:Hp; [|discriminate].
  destruct (precio_unitario l) as [pu|] eqn:Hpu; [|discriminate].
  destruct (dv_pk l) as [k|] eqn:Hk.
  - destruct (existsb (fun x => dr_id x =? k) (detalles (db w))) eqn:E;
      intros [= <- <- <-]; simpl; repeat split; auto; try discriminate;
      try (intros; congruence).
    + eexists. split.
      * apply (update_detalle_elem
                 (mkDetalleRow k vid pid (cantidad l) pu (importe l) (hora l))).
        exact E.
      * simpl. repeat split; auto.
    + eexists. split.
      * apply elem_of_app. right. apply list_elem_of_here.
      * simpl. repeat split; auto.
  - intros [= <- <- <-]; simpl; repeat split; auto; try discriminate.
    eexists. split.
    + apply elem_of_app. right. apply list_elem_of_here.
    + simpl. repeat split; auto.
Qed.

(** The hook changes no field of the line but its product object, and
    no table but products and movements. *)
Lemma stock_effect_inv (l : DetalleVenta) (c : bool) (w : World)
    (l' : DetalleVenta) (w' : World) :
  actualizar_stock_post_venta l c w = (Ok l', w') ->
  dv_pk l' = dv_pk l /\ venta l' = venta l /\ cantidad l' = cantidad l
  /\ precio_unitario l' = precio_unitario l /\ importe l' = importe l
  /\ fk_producto (producto l') = fk_producto (producto l)
  /\ ventas (db w') = ventas (db w)
  /\ detalles (db w') = detalles (db w).
Proof.
  unfold actualizar_stock_post_venta.
  destruct (venta l) as [v|] eqn:Hv; [|intros [= <- <-]; repeat split; auto].
  destruct (c && negb (anulada v));
    [|intros [= <- <-]; repeat split; auto].
  destruct (producto l) as [p|] eqn:Hp; [|discriminate].
  destruct (p_pk p) as [pid|] eqn:Hpid; [|discriminate].
  unfold bind at 1. unfold get_db at 1.
  destruct (mov_exists (etiqueta v) pid (movimientos (db w))) eqn:E.
  - unfold bind at 1. unfold ret at 1.
    destruct (cantidad l) as [q|] eqn:Hq; [|discriminate].
    unfold bind at 1. rewrite (Producto_save_stored _ pid) by exact Hpid.
    intros [= <- <-]. simpl. rewrite Hpid.
    repeat split; auto.
  - destruct (cantidad l) as [q|] eqn:Hq.
    + unfold bind at 1. unfold bind at 1.
      rewrite (MovimientoStock_save_new p pid q "salida" _ w Hpid).
      simpl. unfold ret at 1. unfold bind at 1.
      rewrite (Producto_save_stored _ pid) by exact Hpid.
      intros [= <- <-]. simpl. unfold producto_tras_movimiento. simpl.
      rewrite Hpid. repeat split; auto.
    + unfold bind at 1. unfold bind at 1.
      unfold MovimientoStock_save, MovimientoStock_super_save. run_monad.
      rewrite Hpid. discriminate.
Qed.

Lemma preparar_campos (l : DetalleVenta) :
  let l2 := calcular_importe (congelar_precio l) in
  dv_pk l2 = dv_pk l /\ venta l2 = venta l /\ producto l2 = producto l
  /\ cantidad l2 = cantidad l
  /\ precio_unitario l2 = precio_unitario (congelar_precio l)
  /\ hora l2 = hora l.
Proof.
  unfold calcular_importe, congelar_precio.
  destruct l as [pk v p q pu i h]; simpl.
  destruct pk, p, q, pu; simpl;
    repeat match goal with
           | |- context [if ?b then _ else _] => destruct b; simpl
           end; repeat split; reflexivity.
Qed.

(** What a successful [DetalleVenta.save] leaves behind. *)
Lemma DetalleVenta_save_inv (l : DetalleVenta) (w : World) (l' : DetalleVenta)
    (w' : World) :
  DetalleVenta_save l w = (Ok l', w') ->
  precio_unitario l' = precio_unitario (congelar_precio l)
  /\ importe l' = importe (calcular_importe (congelar_precio l))
  /\ cantidad l' = cantidad l
  /\ (exists r, r ∈ detalles (db w') /\ fila_de l' r)
  /\ (forall v, venta l = Some v ->
        exists k, v_pk v = Some k
          /\ importe_total <$> ventas (db w') !! k
             = Some (suma_importes (detalleventa_set k (db w')))).
Proof.
  unfold DetalleVenta_save.
  destruct (preparar_campos l) as (Epk & Ev & Ep & Eq & Epu & Eh).
  set (l2 := calcular_importe (congelar_precio l)) in *.
  unfold bind at 1. unfold DetalleVenta_super_save, bind at 1.
  destruct (DetalleVenta_write l2 w) as [[[l2' c]|e] w2] eqn:Hw; [|discriminate].
  simpl.
  destruct (actualizar_stock_post_venta l2' c w2) as [[l3|e] w3] eqn:Hh;
    [|discriminate].
  apply DetalleVenta_write_inv in Hw
    as (Wv & Wp & Wq & Wpu & Wi & _ & _ & _ & _ & _ & _ & r & Hr & Hf).
  apply stock_effect_inv in Hh as (Spk & Sv & Sq & Spu & Si & Sfk & Sven & Sdet).
  destruct Hf as (F1 & F2 & F3 & F4 & F5 & F6).
  destruct (venta l3) as [v3|] eqn:Hv3.
  - unfold bind at 1.
    destruct (calcular_importe_total v3 w3) as [[v4|e] w4] eqn:Hc; [|discriminate].
    intros [= <- <-].
    apply calcular_importe_total_inv in Hc as (k & row & Hk & Hrow & Hdb & Hk4 & Ht).
    simpl. repeat split; try congruence.
    + exists r. split.
      * rewrite Hdb. simpl. rewrite Sdet. exact Hr.
      * unfold fila_de. simpl. rewrite Hk4.
        assert (fk_venta (venta l2') = Ok (Some k)) as Hfk.
        { rewrite <- Sv. simpl. rewrite Hk. reflexivity. }
        repeat split; congruence.
    + intros v Hv. exists k. split.
      * congruence.
      * rewrite Hdb. apply db_con_total_sincronizado.
  - intros [= <- <-]. repeat split; try congruence.
    exists r. split; [rewrite Sdet; exact Hr|].
    unfold fila_de. repeat split; congruence.
Qed.



Lemma Producto_save_detalles (p : Producto) (w : World) :
  detalles (db (Producto_save p w).2) = detalles (db w).
Proof.
  unfold Producto_save. run_monad. destruct (p_pk p); reflexivity.
Qed.

(** C1. On the first save of a sale line (no key yet) that has a product,
    the unit price of the line, in the object and in the stored row,
    is the price of that product object; on a save of a line that already
    has a key the unit price is the one the line had, whatever the price
    of its product is by then; and saving a product never touches the
    stored lines. *)
Theorem precio_unitario_congelado (l : DetalleVenta) (w : World)
    (l' : DetalleVenta) (w' : World) :
  DetalleVenta_save l w = (Ok l', w') ->
  (forall p, dv_pk l = None -> producto l = Some p ->
     precio_unitario l' = Some (precio p)
     /\ exists r, r ∈ detalles (db w') /\ fila_de l' r
                  /\ dr_precio_unitario r = precio p)
  /\ (forall k, dv_pk l = Some k ->
        precio_unitario l' = precio_unitario l
        /\ exists r, r ∈ detalles (db w') /\ fila_de l' r
                     /\ Some (dr_precio_unitario r) = precio_unitario l)
  /\ (forall p, detalles (db (Producto_save p w').2) = detalles (db w')).
Proof.
  intros Hrun.
  apply DetalleVenta_save_inv in Hrun as (Hpu & _ & _ & (r & Hr & Hf) & _).
  split; [|split].
  - intros p Hpk Hp.
    assert (precio_unitario l' = Some (precio p)) as E.
    { rewrite Hpu. unfold congelar_precio. rewrite Hpk, Hp. reflexivity. }
    split; [exact E|]. exists r. repeat split; try apply Hf; try exact Hr.
    destruct Hf as (_ & F2 & _). congruence.
  - intros k Hpk.
    assert (precio_unitario l' = precio_unitario l) as E.
    { rewrite Hpu. unfold congelar_precio. rewrite Hpk. reflexivity. }
    split; [exact E|]. exists r. repeat split; try apply Hf; try exact Hr.
    destruct Hf as (_ & F2 & _). congruence.
  - intros p. apply Producto_save_detalles.
Qed.

Lemma precio_unitario_congelado_witness :
  DetalleVenta_save linea_nueva mundo_vendido = (Ok linea_guardada, mundo_tras_linea)
  /\ (forall p, dv_pk linea_nueva = None -> producto linea_nueva = Some p ->
        precio_unitario linea_guardada = Some (precio p)
        /\ exists r, r ∈ detalles (db mundo_tras_linea) /\ fila_de linea_guardada r
                     /\ dr_precio_unitario r = precio p)
  /\ (forall k, dv_pk linea_nueva = Some k ->
        precio_unitario linea_guardada = precio_unitario linea_nueva
        /\ exists r, r ∈ detalles (db mundo_tras_linea) /\ fila_de linea_guardada r
                     /\ Some (dr_precio_unitario r) = precio_unitario linea_nueva)
  /\ (forall p, detalles (db (Producto_save p mundo_tras_linea).2)
               = detalles (db mundo_tras_linea)).
Proof.
  assert (DetalleVenta_save linea_nueva mundo_vendido
          = (Ok linea_guardada, mundo_tras_linea)) as H
    by (vm_compute; reflexivity).
  split; [exact H|].
  exact (precio_unitario_congelado linea_nueva mundo_vendido
           linea_guardada mundo_tras_linea H).
Defined.

(** The price of the hammer goes up after the sale: the stored line and
    the total of the sale stay at the old price, also when the line is
    saved again. *)
Example precio_cambiado_tras_venta :
  precio <$> productos (db mundo_con_precio_nuevo) !! 1 = Some 15000
  /\ detalles (db mundo_con_precio_nuevo)
     = [mkDetalleRow 1 (Some 1) (Some 1) (Some 3) 10000 30000 1000]
  /\ importe_total <$> ventas (db mundo_con_precio_nuevo) !! 1 = Some 30000
  /\ precio_unitario
       (valor (DetalleVenta_save linea_con_producto_caro mundo_con_precio_nuevo)
              linea_nueva) = Some 10000
  /\ detalles (db (DetalleVenta_save linea_con_producto_caro mundo_con_precio_nuevo).2)
     = [mkDetalleRow 1 (Some 1) (Some 1) (Some 3) 10000 30000 1000]
  /\ importe_total
       <$> ventas (db (DetalleVenta_save linea_con_producto_caro
                         mundo_con_precio_nuevo).2) !! 1
     = Some 30000.
Proof.
  split; [vm_compute; reflexivity|].
  split; [vm_compute; reflexivity|].
  split; [vm_compute; reflexivity|].
  split; [vm_compute; reflexivity|].
  split; vm_compute; reflexivity.
Qed.





Lemma mov_exists_tras_venta (v : Venta) (pid q : Z) (d : DB) :
  mov_exists (etiqueta v) pid (movimientos_tras_venta v pid q d) = true.
Proof.
  unfold movimientos_tras_venta.
  destruct (mov_exists (etiqueta v) pid (movimientos d)) eqn:E; [exact E|].
  unfold mov_exists. rewrite existsb_app. apply orb_true_iff. right.
  simpl. unfold mov_matches. simpl.
  rewrite bool_decide_eq_true_2 by reflexivity. rewrite Z.eqb_refl. reflexivity.
Qed.

(** C3, as amended. The stock effect does nothing when the line was
    updated rather than created, when the line has no sale, and when the
    sale object is void. Otherwise, when the quantity of the line does
    not exceed the quantity of the product object of the line, it lowers
    the quantity of that object by the quantity of the line and stores
    the object, with its key, name and price, writing no other product:
    the stored quantity goes down by the quantity of the line when the
    stored product had the quantity of the object. It appends one
    ['salida'] movement of that quantity labelled
    ["Venta " ++ numero_comprobante] unless a movement with that label and
    product is already stored. The decrement is not guarded: fired
    again on the same line it lowers the quantity once more, while the
    movement table stays as the first firing left it. *)
Theorem efecto_stock_post_venta (l : DetalleVenta) (created : bool) (w : World) :
  (created = false -> actualizar_stock_post_venta l created w = (Ok l, w))
  /\ (venta l = None -> actualizar_stock_post_venta l created w = (Ok l, w))
  /\ (forall v, venta l = Some v -> anulada v = true ->
        actualizar_stock_post_venta l created w = (Ok l, w))
  /\ (forall v p pid q,
        created = true -> venta l = Some v -> anulada v = false ->
        producto l = Some p -> p_pk p = Some pid -> cantidad l = Some q ->
        0 <= cantidad_stock p -> q <= cantidad_stock p ->
        exists l1 w1 p1,
          actualizar_stock_post_venta l created w = (Ok l1, w1)
          /\ producto l1 = Some p1
          /\ productos (db w1) !! pid = Some p1
          /\ cantidad_stock p1 = cantidad_stock p - q
          /\ p_pk p1 = Some pid /\ nombre p1 = nombre p /\ precio p1 = precio p
          /\ (forall j, j <> pid ->
                productos (db w1) !! j = productos (db w) !! j)
          /\ (forall p0, productos (db w) !! pid = Some p0 ->
                cantidad_stock p0 = cantidad_stock p ->
                cantidad_stock <$> productos (db w1) !! pid
                = Some (cantidad_stock p0 - q))
          /\ movimientos (db w1) =
               (if mov_exists (etiqueta v) pid (movimientos (db w))
                then movimientos (db w)
                else movimientos (db w)
                       ++ [mkMovRow (seq_mov (db w)) pid "salida" q
                                    (Some (etiqueta v))])
          /\ (q <= cantidad_stock p - q ->
              exists l2 w2,
                actualizar_stock_post_venta l1 created w1 = (Ok l2, w2)
                /\ cantidad_stock <$> productos (db w2) !! pid
                   = Some (cantidad_stock p - q - q)
                /\ movimientos (db w2) = movimientos (db w1))).
Proof.
  split; [|split; [|split]].
  - intros ->. apply stock_effect_skipped. left. reflexivity.
  - intros Hv. apply stock_effect_skipped. right. left. exact Hv.
  - intros v Hv Han. apply stock_effect_skipped. right. right. exists v. auto.
  - intros v p pid q -> Hv Han Hp Hpid Hq _ _.
    set (p1 := set_cantidad_stock p (cantidad_stock p - q)).
    set (l1 := set_producto l (Some p1)).
    set (w1 := mkWorld (db_tras_venta v p pid q (db w)) (draws w)).
    exists l1, w1, p1.
    split; [apply stock_effect_fires; assumption|].
    split; [reflexivity|].
    split; [simpl; apply lookup_insert_eq|].
    split; [reflexivity|]. split; [exact Hpid|].
    split; [reflexivity|]. split; [reflexivity|].
    split; [intros j Hj; simpl; apply lookup_insert_ne; congruence|].
    split; [intros p0 _ E; simpl; rewrite lookup_insert_eq; simpl; rewrite E;
            reflexivity|].
    split; [reflexivity|].
    intros _.
    exists (set_producto l1 (Some (set_cantidad_stock p1 (cantidad_stock p1 - q)))),
           (mkWorld (db_tras_venta v p1 pid q (db w1)) (draws w1)).
    split; [apply (stock_effect_fires l1 v p1 pid q w1); simpl; auto|].
    split.
    + simpl. rewrite lookup_insert_eq. reflexivity.
    + simpl. unfold movimientos_tras_venta at 1. simpl.
      rewrite mov_exists_tras_venta. reflexivity.
Qed.

Lemma efecto_stock_post_venta_witness :
  exists l1 w1 p1,
    actualizar_stock_post_venta linea_martillos true mundo_con_venta = (Ok l1, w1)
    /\ producto l1 = Some p1
    /\ productos (db w1) !! 1 = Some p1
    /\ cantidad_stock p1 = cantidad_stock martillo - 3
    /\ p_pk p1 = Some 1 /\ nombre p1 = nombre martillo /\ precio p1 = precio martillo
    /\ (forall j, j <> 1 ->
          productos (db w1) !! j = productos (db mundo_con_venta) !! j)
    /\ (forall p0, productos (db mundo_con_venta) !! 1 = Some p0 ->
          cantidad_stock p0 = cantidad_stock martillo ->
          cantidad_stock <$> productos (db w1) !! 1 = Some (cantidad_stock p0 - 3))
    /\ movimientos (db w1) =
         (if mov_exists (etiqueta venta_martillos) 1 (movimientos (db mundo_con_venta))
          then movimientos (db mundo_con_venta)
          else movimientos (db mundo_con_venta)
                 ++ [mkMovRow (seq_mov (db mundo_con_venta)) 1 "salida" 3
                              (Some (etiqueta venta_martillos))])
    /\ (3 <= cantidad_stock martillo - 3 ->
        exists l2 w2,
          actualizar_stock_post_venta l1 true w1 = (Ok l2, w2)
          /\ cantidad_stock <$> productos (db w2) !! 1
             = Some (cantidad_stock martillo - 3 - 3)
          /\ movimientos (db w2) = movimientos (db w1)).
Proof.
  apply (proj2 (proj2 (proj2
           (efecto_stock_post_venta linea_martillos true mundo_con_venta)))
           venta_martillos martillo 1 3);
    [reflexivity | reflexivity | reflexivity | reflexivity | reflexivity
    | reflexivity | simpl; lia | simpl; lia].
Defined.

(** C3, counterexample: the stock effect fired twice on one line of three
    hammers, with one and the same receipt label, takes six hammers
    out of the ten in stock, and leaves one movement of three. *)
Lemma efecto_stock_duplicado :
  exists l1 w1 l2 w2,
    actualizar_stock_post_venta linea_martillos true mundo_con_venta = (Ok l1, w1)
    /\ actualizar_stock_post_venta l1 true w1 = (Ok l2, w2)
    /\ cantidad_stock <$> productos (db mundo_con_venta) !! 1 = Some 10
    /\ cantidad_stock <$> productos (db w2) !! 1 = Some 4
    /\ cantidad_stock <$> productos (db w2) !! 1 <> Some (10 - 3)
    /\ movimientos (db w2) =
         [mkMovRow 1 1 "salida" 3 (Some "Venta 1234567890123")].
Proof.
  do 4 eexists.
  split; [vm_compute; reflexivity|].
  split; [vm_compute; reflexivity|].
  split; [vm_compute; reflexivity|].
  split; [vm_compute; reflexivity|].
  split; [|vm_compute; reflexivity].
  intros H. vm_compute in H. discriminate H.
Qed.

(** ** One movement per sale and product *)

Lemma Venta_save_movimientos (v : Venta) (b : bool) (w : World) :
  movimientos (db (Venta_save v b w).2) = movimientos (db w).
Proof.
  unfold Venta_save, atomic, Venta_super_save, generar_numero_comprobante.
  run_monad.
  repeat (case_match; simplify_eq; simpl; try reflexivity).
Qed.

Lemma calcular_importe_total_movimientos (v : Venta) (w : World) :
  movimientos (db (calcular_importe_total v w).2) = movimientos (db w).
Proof.
  unfold calcular_importe_total. destruct (v_pk v); [|reflexivity].
  unfold bind at 1. unfold get_db at 1. apply Venta_save_movimientos.
Qed.







(** The second line of the example: two more hammers on the sale of
    three. The stock goes from seven to five and the one movement of the
    first line is all there is. *)
Example segunda_linea_martillos :
  DetalleVenta_save linea_nueva mundo_vendido = (Ok linea_guardada, mundo_tras_linea)
  /\ cantidad_stock <$> productos (db mundo_vendido) !! 1 = Some 7
  /\ cantidad_stock <$> productos (db mundo_tras_linea) !! 1 = Some 5
  /\ movimientos (db mundo_tras_linea)
     = [mkMovRow 1 1 "salida" 3 (Some "Venta 1234567890123")]
  /\ importe_total <$> ventas (db mundo_tras_linea) !! 1 = Some 50000.
Proof.
  split; [vm_compute; reflexivity|].
  split; [vm_compute; reflexivity|].
  split; [vm_compute; reflexivity|].
  split; vm_compute; reflexivity.
Qed.

(** ** Voiding a sale *)

Lemma devolver_0 (p : Producto) : devolver 0 p = p.
Proof.
  unfold devolver, set_cantidad_stock. destruct p; simpl. f_equal. lia.
Qed.

Lemma devolver_devolver (a b : Z) (p : Producto) :
  devolver b (devolver a p) = devolver (a + b) p.
Proof.
  unfold devolver, set_cantidad_stock. simpl. f_equal. lia.
Qed.

Lemma linea_revertible_insert (ps : gmap Z Producto) (pid : Z) (p' : Producto)
    (r : DetalleRow) :
  p_pk p' = Some pid ->
  linea_revertible ps r = true ->
  linea_revertible (<[pid := p']> ps) r = true.
Proof.
  unfold linea_revertible. intros Hpk.
  destruct (dr_producto_id r) as [k|]; [|discriminate].
  destruct (dr_cantidad r); [|discriminate].
  destruct (decide (pid = k)) as [->|Hne].
  - rewrite lookup_insert_eq. intros _. apply bool_decide_eq_true_2. exact Hpk.
  - rewrite lookup_insert_ne by exact Hne. auto.
Qed.

Lemma revertir_stock_ok (rows : list DetalleRow) (w : World) :
  forallb (linea_revertible (productos (db w))) rows = true ->
  exists w',
    revertir_stock rows w = (Ok tt, w')
    /\ ventas (db w') = ventas (db w)
    /\ detalles (db w') = detalles (db w)
    /\ movimientos (db w') = movimientos (db w)
    /\ draws w' = draws w
    /\ forall pid,
         productos (db w') !! pid
         = devolver (cantidad_devuelta pid rows) <$> productos (db w) !! pid.
Proof.
  revert w. induction rows as [|r rows IH]; intros w Hall.
  - exists w. repeat split; try reflexivity.
    intros pid. simpl. destruct (productos (db w) !! pid) as [p|]; simpl;
      [rewrite devolver_0|]; reflexivity.
  - simpl in Hall. apply andb_prop in Hall as [Hr Hrest].
    unfold linea_revertible in Hr. simpl.
    destruct (dr_producto_id r) as [pid0|] eqn:Hpid0; [|discriminate].
    destruct (dr_cantidad r) as [q|] eqn:Hq; [|discriminate].
    unfold bind at 1. unfold get_db at 1.
    destruct (productos (db w) !! pid0) as [p0|] eqn:Hp0; [|discriminate].
    apply bool_decide_eq_true in Hr.
    unfold bind at 1.
    rewrite (Producto_save_stored _ pid0) by exact Hr.
    fold (devolver q p0).
    match goal with
    | |- context [revertir_stock rows ?w1] => destruct (IH w1) as (w' & Hrun & Hv & Hd & Hm & Hdr & Hps)
    end.
    { simpl. clear -Hrest Hr.
      induction rows as [|x rows IHr]; [reflexivity|].
      simpl in *. apply andb_prop in Hrest as [Hx Hrest].
      rewrite (linea_revertible_insert _ pid0 (devolver q p0) x); auto. }
    exists w'. split; [exact Hrun|].
    simpl in *. repeat split; try assumption.
    intros pid. rewrite Hps.
    destruct (decide (pid0 = pid)) as [->|Hne].
    + rewrite lookup_insert_eq, Hp0. simpl.
      rewrite bool_decide_eq_true_2 by reflexivity.
      rewrite devolver_devolver. reflexivity.
    + rewrite lookup_insert_ne by exact Hne.
      rewrite bool_decide_eq_false_2 by congruence.
      reflexivity.
Qed.

Lemma Venta_save_ok (v : Venta) (k : Z) (w : World) :
  numero_comprobante v <> EmptyString ->
  v_pk v = Some k ->
  numero_de_otra (Some k) (numero_comprobante v) (ventas (db w)) = false ->
  Venta_save v false w =
    (Ok v, mkWorld (with_ventas (db w) (<[k := v]> (ventas (db w)))
                                (Z.max (seq_venta (db w)) (k + 1)))
                   (draws w)).
Proof.
  intros Hn Hk Hu. unfold Venta_save, atomic.
  destruct (numero_comprobante v) eqn:E; [congruence|]. rewrite <- E in Hu.
  unfold bind at 1. unfold ret at 1.
  unfold Venta_super_save. run_monad. rewrite Hk, Hu. reflexivity.
Qed.

(** The whole of [venta_anular] on a POST for a stored sale. *)
Lemma venta_anular_ok (request : Request) (pk : Z) (v : Venta) (w : World) :
  method request = "POST" ->
  ventas (db w) !! pk = Some v -> v_pk v = Some pk ->
  numero_comprobante v <> EmptyString ->
  numero_de_otra (Some pk) (numero_comprobante v) (ventas (db w)) = false ->
  forallb (linea_revertible (productos (db w))) (detalleventa_set pk (db w)) = true ->
  exists w',
    venta_anular request pk w = (Ok (redirect "venta_lista"), w')
    /\ ventas (db w') = <[pk := set_anulada v true]> (ventas (db w))
    /\ detalles (db w') = detalles (db w)
    /\ movimientos (db w') = movimientos (db w)
    /\ forall pid,
         productos (db w') !! pid
         = devolver (cantidad_devuelta pid (detalleventa_set pk (db w)))
             <$> productos (db w) !! pid.
Proof.
  intros Hm Hv Hpk Hn Hu Hall.
  unfold venta_anular, get_Venta_or_404.
  unfold bind at 1. unfold bind at 1. unfold get_db at 1. rewrite Hv.
  unfold ret at 1. rewrite Hm, String.eqb_refl.
  unfold bind at 1.
  rewrite (Venta_save_ok (set_anulada v true) pk) by assumption.
  unfold bind at 1. unfold get_db at 1.
  unfold bind at 1.
  match goal with
  | |- context [revertir_stock ?rows ?w1] =>
      destruct (revertir_stock_ok rows w1) as (w' & Hrun & Hven & Hdet & Hmov & _ & Hps)
  end.
  { exact Hall. }
  exists w'. split.
  - simpl in Hrun |- *. rewrite Hrun. reflexivity.
  - simpl in *. repeat split; assumption.
Qed.

Lemma cantidad_devuelta_ajena (pid : Z) (rows : list DetalleRow) :
  (forall r, r ∈ rows -> dr_producto_id r <> Some pid) ->
  cantidad_devuelta pid rows = 0.
Proof.
  induction rows as [|x rows IH]; intros H; [reflexivity|].
  simpl. rewrite bool_decide_eq_false_2.
  - rewrite IH; [reflexivity|]. intros r Hr. apply H. apply list_elem_of_further. exact Hr.
  - apply H. apply list_elem_of_here.
Qed.

Lemma cantidad_devuelta_de_venta (k pid : Z) (d : DB) :
  cantidad_devuelta pid (detalleventa_set k d) = cantidad_de_venta k pid (detalles d).
Proof.
  unfold detalleventa_set. induction (detalles d) as [|r rows IH]; [reflexivity|].
  simpl. unfold de_venta at 1.
  destruct (bool_decide (dr_venta_id r = Some k)); simpl; rewrite IH; reflexivity.
Qed.

(** C4. A POST to [venta_anular] for a stored sale, when every row of the
    line table that belongs to the sale has a stored product and a
    quantity, answers with the redirect, stores the sale with [anulada]
    true, and stores every product with its quantity raised by the
    quantities of the rows of the line table that belong to the sale and
    refer to that product; the sale is still stored and the line table is
    the same as before. *)
Theorem venta_anular_revierte_stock (request : Request) (pk : Z) (v : Venta)
    (w : World) :
  method request = "POST" ->
  ventas (db w) !! pk = Some v -> v_pk v = Some pk ->
  numero_comprobante v <> EmptyString ->
  numero_de_otra (Some pk) (numero_comprobante v) (ventas (db w)) = false ->
  (forall r, r ∈ detalles (db w) -> dr_venta_id r = Some pk ->
     linea_revertible (productos (db w)) r = true) ->
  exists w',
    venta_anular request pk w = (Ok (redirect "venta_lista"), w')
    /\ anulada <$> ventas (db w') !! pk = Some true
    /\ (forall pid p,
          productos (db w) !! pid = Some p ->
          exists p',
            productos (db w') !! pid = Some p'
            /\ cantidad_stock p' =
                 cantidad_stock p + cantidad_de_venta pk pid (detalles (db w)))
    /\ detalles (db w') = detalles (db w).
Proof.
  intros Hm Hv Hpk Hn Hu Hall.
  assert (forallb (linea_revertible (productos (db w))) (detalleventa_set pk (db w))
          = true) as Hall'.
  { apply forallb_forall. intros r Hr. unfold detalleventa_set in Hr.
    apply filter_In in Hr as [Hin Hde].
    apply Hall; [apply list_elem_of_In; exact Hin|].
    unfold de_venta in Hde. apply bool_decide_eq_true in Hde. exact Hde. }
  destruct (venta_anular_ok request pk v w Hm Hv Hpk Hn Hu Hall')
    as (w' & Hrun & Hven & Hdet & _ & Hps).
  exists w'. split; [exact Hrun|]. split; [|split].
  - rewrite Hven, lookup_insert_eq. reflexivity.
  - intros pid p Hp. rewrite Hps, Hp, cantidad_devuelta_de_venta. simpl.
    eexists. split; reflexivity.
  - exact Hdet.
Qed.

(** C9. A POST to [venta_anular] for a stored sale changes nothing in
    the store but the void flag of that sale and the quantities of the
    products: the sale table differs
    only at the sale, whose row is the old one with [anulada] true (same
    total, receipt number and date); the line table and the movement
    table are the same; every product keeps its key, name and price, and
    a product no line of the sale refers to keeps its whole row. *)
Theorem venta_anular_marco (request : Request) (pk : Z) (v : Venta) (w : World) :
  method request = "POST" ->
  ventas (db w) !! pk = Some v -> v_pk v = Some pk ->
  numero_comprobante v <> EmptyString ->
  numero_de_otra (Some pk) (numero_comprobante v) (ventas (db w)) = false ->
  forallb (linea_revertible (productos (db w))) (detalleventa_set pk (db w)) = true ->
  exists w' v',
    venta_anular request pk w = (Ok (redirect "venta_lista"), w')
    /\ ventas (db w') !! pk = Some v'
    /\ importe_total v' = importe_total v
    /\ numero_comprobante v' = numero_comprobante v
    /\ fecha v' = fecha v
    /\ cliente v' = cliente v /\ medio_de_pago v' = medio_de_pago v
    /\ (forall k, k <> pk -> ventas (db w') !! k = ventas (db w) !! k)
    /\ detalles (db w') = detalles (db w)
    /\ movimientos (db w') = movimientos (db w)
    /\ (forall pid p',
          productos (db w') !! pid = Some p' ->
          exists p, productos (db w) !! pid = Some p
                    /\ p_pk p' = p_pk p /\ nombre p' = nombre p
                    /\ precio p' = precio p)
    /\ (forall pid,
          (forall r, r ∈ detalleventa_set pk (db w) -> dr_producto_id r <> Some pid) ->
          productos (db w') !! pid = productos (db w) !! pid).
Proof.
  intros Hm Hv Hpk Hn Hu Hall.
  destruct (venta_anular_ok request pk v w Hm Hv Hpk Hn Hu Hall)
    as (w' & Hrun & Hven & Hdet & Hmov & Hps).
  exists w', (set_anulada v true). split; [exact Hrun|].
  split; [rewrite Hven; apply lookup_insert_eq|].
  do 5 (split; [reflexivity|]).
  split; [intros k Hk; rewrite Hven; apply lookup_insert_ne; congruence|].
  split; [exact Hdet|]. split; [exact Hmov|]. split.
  - intros pid p' Hp'. rewrite Hps in Hp'.
    destruct (productos (db w) !! pid) as [p|]; [|discriminate].
    simpl in Hp'. injection Hp' as <-. exists p. repeat split.
  - intros pid Hno. rewrite Hps, (cantidad_devuelta_ajena _ _ Hno).
    destruct (productos (db w) !! pid) as [p|]; simpl;
      [rewrite devolver_0|]; reflexivity.
Qed.

Lemma venta_anular_revierte_stock_witness :
  exists w',
    venta_anular anular_venta 1 mundo_vendido = (Ok (redirect "venta_lista"), w')
    /\ anulada <$> ventas (db mundo_vendido) !! 1 = Some false
    /\ anulada <$> ventas (db w') !! 1 = Some true
    /\ cantidad_stock <$> productos (db mundo_vendido) !! 1 = Some 7
    /\ cantidad_stock <$> productos (db w') !! 1 = Some 10
    /\ detalles (db w') = [mkDetalleRow 1 (Some 1) (Some 1) (Some 3) 10000 30000 1000].
Proof.
  destruct (venta_anular_revierte_stock anular_venta 1 venta_martillos mundo_vendido)
    as (w' & Hrun & Han & Hps & Hdet).
  - reflexivity.
  - vm_compute. reflexivity.
  - reflexivity.
  - discriminate.
  - vm_compute. reflexivity.
  - intros r Hr _. vm_compute in Hr. apply list_elem_of_In in Hr.
    destruct Hr as [<- | []]. vm_compute. reflexivity.
  - exists w'. split; [exact Hrun|].
    split; [vm_compute; reflexivity|]. split; [exact Han|].
    split; [vm_compute; reflexivity|].
    split; [|rewrite Hdet; vm_compute; reflexivity].
    destruct (Hps 1 (mkProducto (Some 1) "Martillo" 10000 7)) as (p' & Hp' & Hq).
    + vm_compute. reflexivity.
    + rewrite Hp'. simpl. rewrite Hq. vm_compute. reflexivity.
Defined.

Lemma venta_anular_marco_witness :
  exists w' v',
    venta_anular anular_venta 1 mundo_vendido = (Ok (redirect "venta_lista"), w')
    /\ ventas (db w') !! 1 = Some v'
    /\ importe_total v' = importe_total venta_martillos
    /\ numero_comprobante v' = numero_comprobante venta_martillos
    /\ fecha v' = fecha venta_martillos
    /\ cliente v' = cliente venta_martillos
    /\ medio_de_pago v' = medio_de_pago venta_martillos
    /\ (forall k, k <> 1 ->
          ventas (db w') !! k = ventas (db mundo_vendido) !! k)
    /\ detalles (db w') = detalles (db mundo_vendido)
    /\ movimientos (db w') = movimientos (db mundo_vendido)
    /\ (forall pid p',
          productos (db w') !! pid = Some p' ->
          exists p, productos (db mundo_vendido) !! pid = Some p
                    /\ p_pk p' = p_pk p /\ nombre p' = nombre p
                    /\ precio p' = precio p)
    /\ (forall pid,
          (forall r, r ∈ detalleventa_set 1 (db mundo_vendido) ->
                     dr_producto_id r <> Some pid) ->
          productos (db w') !! pid = productos (db mundo_vendido) !! pid).
Proof.
  apply (venta_anular_marco anular_venta 1 venta_martillos mundo_vendido).
  - reflexivity.
  - vm_compute. reflexivity.
  - reflexivity.
  - discriminate.
  - vm_compute. reflexivity.
  - vm_compute. reflexivity.
Defined.

(** The sale of three hammers voided: the stock is back at ten. *)
Example anular_martillos :
  cantidad_stock <$> productos (db (venta_anular anular_venta 1 mundo_vendido).2) !! 1
  = Some 10.
Proof. vm_compute. reflexivity. Qed.

(** ** Receipt numbers *)

Lemma pretty_N_char_digito (x : N) : es_digito (pretty_N_char x) = true.
Proof.
  unfold pretty_N_char.
  destruct x as [|p]; [reflexivity|].
  do 4 (try reflexivity; destruct p as [p|p|]); reflexivity.
Qed.

Lemma pretty_N_go_digitos (k : nat) :
  forall (x : N) (s : string),
    (10 ^ N.of_nat k <= x < 10 ^ N.of_nat (S k))%N ->
    String.length (pretty_N_go x s) = (String.length s + S k)%nat
    /\ solo_digitos (pretty_N_go x s) = solo_digitos s.
Proof.
  induction k as [|k IH]; intros x s Hx.
  - change (10 ^ N.of_nat 0)%N with 1%N in Hx.
    change (10 ^ N.of_nat 1)%N with 10%N in Hx.
    rewrite pretty_N_go_step by lia.
    assert (x `div` 10 = 0)%N as -> by (apply N.div_small; lia).
    rewrite pretty_N_go_0. simpl. rewrite pretty_N_char_digito.
    split; [lia | reflexivity].
  - rewrite !Nat2N.inj_succ, !N.pow_succ_r' in Hx by lia.
    assert (0 < 10 ^ N.of_nat k)%N as Hpos
      by (pose proof (N.pow_nonzero 10 (N.of_nat k) ltac:(lia)); lia).
    rewrite pretty_N_go_step by lia.
    pose proof (N.div_mod x 10 ltac:(lia)) as Hdm.
    pose proof (N.mod_lt x 10 ltac:(lia)) as Hmod.
    destruct (IH (x `div` 10)%N (String (pretty_N_char (x `mod` 10)) s)) as [Hl Hd].
    { rewrite Nat2N.inj_succ, N.pow_succ_r' by lia. clear IH.
      generalize dependent (10 ^ N.of_nat k)%N. intros P HP HxP.
      generalize dependent (x `div` 10)%N. intros d Hd.
      generalize dependent (x `mod` 10)%N. intros m Hm1 Hm2. lia. }
    rewrite Hl, Hd. simpl. rewrite pretty_N_char_digito.
    split; [lia | reflexivity].
Qed.

(** Python's [str] of a number of the range of [generar_numero_comprobante]
    has thirteen characters, all of them digits. *)
Lemma numero_trece_digitos (n : Z) :
  numero_min <= n <= numero_max ->
  String.length (pretty n) = 13%nat /\ solo_digitos (pretty n) = true.
Proof.
  unfold numero_min, numero_max. intros Hn.
  destruct n as [|x|x]; try lia.
  change (pretty (Z.pos x)) with (pretty (N.pos x)).
  unfold pretty, pretty_N. rewrite decide_False by discriminate.
  destruct (pretty_N_go_digitos 12 (N.pos x) EmptyString) as [Hl Hd].
  { change (10 ^ N.of_nat 12)%N with 1000000000000%N.
    change (10 ^ N.of_nat 13)%N with 10000000000000%N.
    change (10 ^ 12) with 1000000000000 in Hn.
    change (10 ^ 13) with 10000000000000 in Hn. lia. }
  rewrite Hl, Hd. split; reflexivity.
Qed.

Lemma numero_exists_false (s : string) (vs : gmap Z Venta) :
  numero_exists s vs = false ->
  forall k u, vs !! k = Some u -> numero_comprobante u <> s.
Proof.
  unfold numero_exists. intros Hex k u Hu Heq.
  assert (existsb (fun kv : Z * Venta => String.eqb (numero_comprobante kv.2) s)
                  (map_to_list vs) = true) as Ht.
  { apply existsb_exists. exists (k, u). split.
    - apply list_elem_of_In, elem_of_map_to_list. exact Hu.
    - simpl. apply String.eqb_eq. exact Heq. }
  congruence.
Qed.

Lemma numero_exists_de_otra (k : option Z) (s : string) (vs : gmap Z Venta) :
  numero_exists s vs = false -> numero_de_otra k s vs = false.
Proof.
  unfold numero_exists, numero_de_otra. intros Hex.
  destruct (existsb _ (map_to_list vs)) eqn:E in |- *; [|reflexivity].
  apply existsb_exists in E as (kv & Hin & Hkv).
  apply andb_prop in Hkv as [_ Hkv].
  assert (existsb (fun kv : Z * Venta => String.eqb (numero_comprobante kv.2) s)
                  (map_to_list vs) = true) as Ht.
  { apply existsb_exists. exists kv. split; assumption. }
  congruence.
Qed.

(** The loop skips the draws whose text is taken and stops at the first
    one whose text is free. *)
Lemma generar_loop_ok (vs : gmap Z Venta) (pre : list Z) (n : Z) (post : list Z) :
  forallb (fun m => numero_exists (pretty m) vs) pre = true ->
  numero_exists (pretty n) vs = false ->
  generar_loop vs (pre ++ n :: post) = (Ok (pretty n), post).
Proof.
  intros Hpre Hn. induction pre as [|m pre IH]; simpl.
  - rewrite Hn. reflexivity.
  - simpl in Hpre. apply andb_prop in Hpre as [Hm Hpre].
    rewrite Hm. apply IH. exact Hpre.
Qed.

(** [Venta.save] of a sale without a number, when the draws [pre] are
    all taken and the draw [n] is free. *)
Lemma Venta_save_genera (v : Venta) (w : World) (pre : list Z) (n : Z)
    (post : list Z) :
  numero_comprobante v = EmptyString ->
  draws w = pre ++ n :: post ->
  forallb (fun m => numero_exists (pretty m) (ventas (db w))) pre = true ->
  numero_exists (pretty n) (ventas (db w)) = false ->
  exists v' w' k,
    Venta_save v false w = (Ok v', w')
    /\ v' = set_v_pk (set_numero_comprobante v (pretty n)) (Some k)
    /\ ventas (db w') = <[k := v']> (ventas (db w))
    /\ draws w' = post.
Proof.
  intros He Hd Hpre Hn. unfold Venta_save, atomic. rewrite He.
  unfold bind at 1. unfold bind at 1. unfold generar_numero_comprobante.
  rewrite Hd, (generar_loop_ok _ pre n post Hpre Hn).
  unfold ret at 1. unfold Venta_super_save. run_monad.
  rewrite (numero_exists_de_otra _ _ _ Hn).
  destruct (v_pk v) as [k|] eqn:Hk; simpl.
  - exists (set_numero_comprobante v (pretty n)),
           (mkWorld (with_ventas (db w)
                       (<[k := set_numero_comprobante v (pretty n)]> (ventas (db w)))
                       (Z.max (seq_venta (db w)) (k + 1))) post), k.
    repeat split;
      unfold set_v_pk, set_numero_comprobante; simpl; rewrite ?Hk; reflexivity.
  - eexists. eexists. exists (seq_venta (db w)). repeat split.
Qed.

(** [Venta.save] of a sale that has a number keeps it. *)
Lemma Venta_save_conserva (v : Venta) (b : bool) (w : World) (v' : Venta)
    (w' : World) :
  numero_comprobante v <> EmptyString ->
  Venta_save v b w = (Ok v', w') ->
  numero_comprobante v' = numero_comprobante v
  /\ draws w' = draws w
  /\ exists k row,
       v_pk v' = Some k /\ ventas (db w') !! k = Some row
       /\ (b = false -> row = v').
Proof.
  intros Hn. unfold Venta_save, atomic.
  destruct (numero_comprobante v) eqn:E; [congruence|]. rewrite <- E. clear Hn.
  unfold bind at 1. unfold ret at 1.
  unfold Venta_super_save. run_monad.
  destruct b.
  - destruct (v_pk v) as [k|] eqn:Hk; [|discriminate].
    destruct (ventas (db w) !! k) as [row|]; [|discriminate].
    intros [= <- <-]. simpl. repeat split.
    exists k. eexists. split; [exact Hk|]. split; [apply lookup_insert_eq|].
    discriminate.
  - destruct (numero_de_otra _ _ _); [discriminate|].
    destruct (v_pk v) as [k|] eqn:Hk; intros [= <- <-]; simpl; repeat split.
    + exists k, v. split; [exact Hk|]. split; [apply lookup_insert_eq|]. reflexivity.
    + eexists. eexists. split; [reflexivity|].
      split; [apply lookup_insert_eq|]. reflexivity.
Qed.

(** C5. Saving a sale without a receipt number, when [random.randint]
    returns values of its range of which [pre] are numbers of stored
    sales and the next one, [n], is not: the sale gets the decimal text of
    [n], which has thirteen digits and is the number of no sale stored
    before, the draws of [pre] and [n] are used up, and the sale is
    stored with that number. Saving a sale that has a number leaves the
    number as it is and draws nothing. *)
Theorem numero_comprobante_unico (v : Venta) (w : World) :
  (forall pre n post,
     numero_comprobante v = EmptyString ->
     draws w = pre ++ n :: post ->
     Forall (fun m => numero_min <= m <= numero_max) (draws w) ->
     forallb (fun m => numero_exists (pretty m) (ventas (db w))) pre = true ->
     numero_exists (pretty n) (ventas (db w)) = false ->
     exists v' w' k,
       Venta_save v false w = (Ok v', w')
       /\ numero_comprobante v' = pretty n
       /\ String.length (numero_comprobante v') = 13%nat
       /\ solo_digitos (numero_comprobante v') = true
       /\ (forall j u, ventas (db w) !! j = Some u ->
             numero_comprobante u <> numero_comprobante v')
       /\ v_pk v' = Some k /\ ventas (db w') !! k = Some v'
       /\ draws w' = post)
  /\ (numero_comprobante v <> EmptyString ->
      forall b v' w',
        Venta_save v b w = (Ok v', w') ->
        numero_comprobante v' = numero_comprobante v
        /\ draws w' = draws w
        /\ exists k row,
             v_pk v' = Some k /\ ventas (db w') !! k = Some row
             /\ (b = false -> row = v')).
Proof.
  split.
  - intros pre n post He Hd Hrange Hpre Hn.
    destruct (Venta_save_genera v w pre n post He Hd Hpre Hn)
      as (v' & w' & k & Hrun & Hv' & Hven & Hpost).
    assert (numero_min <= n <= numero_max) as Hnr.
    { rewrite Hd in Hrange. apply Forall_app in Hrange as [_ Hrange].
      apply Forall_cons in Hrange as [Hrange _]. exact Hrange. }
    destruct (numero_trece_digitos n Hnr) as [Hlen Hdig].
    assert (numero_comprobante v' = pretty n) as Hnum by (rewrite Hv'; reflexivity).
    exists v', w', k. rewrite Hnum.
    split; [exact Hrun|]. split; [reflexivity|].
    split; [exact Hlen|]. split; [exact Hdig|].
    split; [exact (numero_exists_false _ _ Hn)|].
    split; [rewrite Hv'; reflexivity|].
    split; [rewrite Hven; apply lookup_insert_eq | exact Hpost].
  - intros Hn b v' w'. apply Venta_save_conserva. exact Hn.
Qed.

Lemma numero_comprobante_unico_witness :
  exists v' w' k,
    Venta_save venta_nueva false mundo_con_choque = (Ok v', w')
    /\ numero_comprobante v' = pretty 1234567890124
    /\ String.length (numero_comprobante v') = 13%nat
    /\ solo_digitos (numero_comprobante v') = true
    /\ (forall j u, ventas (db mundo_con_choque) !! j = Some u ->
          numero_comprobante u <> numero_comprobante v')
    /\ v_pk v' = Some k /\ ventas (db w') !! k = Some v'
    /\ draws w' = [].
Proof.
  apply (proj1 (numero_comprobante_unico venta_nueva mundo_con_choque)
           [1234567890123] 1234567890124 []).
  - reflexivity.
  - reflexivity.
  - repeat constructor; unfold numero_min, numero_max; lia.
  - vm_compute. reflexivity.
  - vm_compute. reflexivity.
Defined.

(** The number given in the example, after the repeated draw is skipped. *)
Example numero_tras_choque :
  numero_comprobante <$> ventas (db (Venta_save venta_nueva false mundo_con_choque).2) !! 2
  = Some "1234567890124".
Proof. vm_compute. reflexivity. Qed.

(** ** Subtotal of a line *)

Lemma calcular_importe_presentes (l : DetalleVenta) (q pu : Z) :
  cantidad l = Some q -> precio_unitario l = Some pu ->
  q <> 0 -> pu <> 0 ->
  importe (calcular_importe l) = q * pu
  /\ cantidad (calcular_importe l) = cantidad l
  /\ precio_unitario (calcular_importe l) = precio_unitario l.
Proof.
  intros Hq Hpu Hq0 Hpu0. unfold calcular_importe. rewrite Hq, Hpu. simpl.
  rewrite (proj2 (Z.eqb_neq q 0) Hq0), (proj2 (Z.eqb_neq pu 0) Hpu0). simpl.
  auto.
Qed.

Lemma calcular_importe_falta (l : DetalleVenta) :
  cantidad l = None \/ precio_unitario l = None ->
  calcular_importe l = l.
Proof.
  unfold calcular_importe. intros [-> | ->]; simpl; [reflexivity|].
  rewrite andb_false_r. reflexivity.
Qed.

(** A quantity or a unit price of zero is taken for a missing one. *)
Lemma calcular_importe_cero (l : DetalleVenta) :
  cantidad l = Some 0 \/ precio_unitario l = Some 0 ->
  calcular_importe l = l.
Proof.
  unfold calcular_importe. intros [-> | ->]; simpl; [reflexivity|].
  rewrite andb_false_r. reflexivity.
Qed.

(** C6, the code at the failing input. A stored line of three hammers at
    100.00, subtotal 300.00, is saved again with quantity zero: both the
    quantity and the unit price are there, yet the subtotal stays 300.00
    in the object and in the row instead of becoming 0 x 100.00, and the
    total of the sale stays 300.00. *)
Theorem importe_con_cantidad_cero :
  cantidad linea_cero = Some 0
  /\ precio_unitario linea_cero = Some 10000
  /\ importe (calcular_importe (congelar_precio linea_cero)) = 30000
  /\ importe (calcular_importe (congelar_precio linea_cero)) <> 0 * 10000
  /\ (DetalleVenta_save linea_cero mundo_vendido).1
     = Ok (mkDetalleVenta (Some 1) (Some venta_martillos)
             (Some (mkProducto (Some 1) "Martillo" 10000 7))
             (Some 0) (Some 10000) 30000 1000)
  /\ detalles (db mundo_tras_linea_cero)
     = [mkDetalleRow 1 (Some 1) (Some 1) (Some 0) 10000 30000 1000]
  /\ importe_total <$> ventas (db mundo_tras_linea_cero) !! 1 = Some 30000.
Proof.
  split; [reflexivity|]. split; [reflexivity|]. split; [reflexivity|].
  split; [vm_compute; discriminate|].
  split; [vm_compute; reflexivity|].
  split; vm_compute; reflexivity.
Qed.

(** ** Quantity check *)

Lemma clean_cantidad_spec (c : option Z) :
  (clean_cantidad c = Err ValidationError
   <-> c = None \/ exists q, c = Some q /\ q <= 0)
  /\ (forall q, clean_cantidad c = Ok q <-> c = Some q /\ 0 < q).
Proof.
  unfold clean_cantidad. destruct c as [q|].
  - destruct (q <=? 0) eqn:E.
    + apply Z.leb_le in E. split.
      * split; [intros _; right; exists q; auto | reflexivity].
      * intros q'. split; [discriminate|]. intros [[= ->] H]. lia.
    + apply Z.leb_gt in E. split.
      * split; [discriminate|]. intros [H | (q' & [= <-] & H)]; [discriminate|lia].
      * intros q'. split; [intros [= <-]; auto | intros [[= ->] _]; reflexivity].
  - split.
    + split; [intros _; left; reflexivity | reflexivity].
    + intros q. split; [discriminate | intros [H _]; discriminate].
Qed.

(** C8, the code at the failing input. [clean_cantidad] refuses a missing
    quantity and the quantity zero, but [venta_agregar] does not go
    through the form of the line: a POST with quantity ["0"] is answered
    with the redirect, and the sale, the line of quantity zero and a
    movement of quantity zero are stored. *)
Theorem venta_agregar_cantidad_cero :
  clean_cantidad None = Err ValidationError
  /\ clean_cantidad (Some 0) = Err ValidationError
  /\ venta_agregar pedido_cero mundo
     = (Ok (redirect "venta_lista"), mundo_tras_pedido_cero)
  /\ detalles (db mundo_tras_pedido_cero)
     = [mkDetalleRow 1 (Some 1) (Some 1) (Some 0) 10000 0 1000]
  /\ movimientos (db mundo_tras_pedido_cero)
     = [mkMovRow 1 1 "salida" 0 (Some "Venta 1234567890123")]
  /\ numero_comprobante <$> ventas (db mundo_tras_pedido_cero) !! 1
     = Some "1234567890123".
Proof.
  split; [reflexivity|]. split; [reflexivity|].
  split; [vm_compute; reflexivity|].
  split; [vm_compute; reflexivity|].
  split; vm_compute; reflexivity.
Qed.

(** * Further properties of the code *)

(** ** Saving a line when the stock effect does not apply *)

Lemma Venta_save_productos (v : Venta) (b : bool) (w : World) :
  productos (db (Venta_save v b w).2) = productos (db w).
Proof.
  unfold Venta_save, atomic, Venta_super_save, generar_numero_comprobante.
  run_monad.
  repeat (case_match; simplify_eq; simpl; try reflexivity).
Qed.

Lemma calcular_importe_total_productos (v : Venta) (w : World) :
  productos (db (calcular_importe_total v w).2) = productos (db w).
Proof.
  unfold calcular_importe_total. destruct (v_pk v); [|reflexivity].
  unfold bind at 1. unfold get_db at 1. apply Venta_save_productos.
Qed.

(** The write of a line whose key is the key of a stored row: an update,
    reported as not created. *)
Lemma DetalleVenta_write_stored (l : DetalleVenta) (k : Z) (w : World) :
  dv_pk l = Some k ->
  existsb (fun x => dr_id x =? k) (detalles (db w)) = true ->
  productos (db (DetalleVenta_write l w).2) = productos (db w)
  /\ movimientos (db (DetalleVenta_write l w).2) = movimientos (db w)
  /\ forall l' c, (DetalleVenta_write l w).1 = Ok (l', c) -> c = false.
Proof.
  intros Hk Hex. unfold DetalleVenta_write. run_monad.
  destruct (fk_venta (venta l)); simpl; [|repeat split; discriminate].
  destruct (fk_producto (producto l)); simpl; [|repeat split; discriminate].
  destruct (precio_unitario l); simpl; [|repeat split; discriminate].
  rewrite Hk, Hex. simpl. repeat split. intros l' c [= _ <-]. reflexivity.
Qed.

(** X1. Saving a sale line that is already stored (an edit, whatever fields of
    it changed) leaves the product table and the movement table as they
    were, whatever the outcome of the save. *)
Theorem editar_linea_no_toca_stock (l : DetalleVenta) (k : Z) (w : World) :
  dv_pk l = Some k ->
  existsb (fun x => dr_id x =? k) (detalles (db w)) = true ->
  productos (db (DetalleVenta_save l w).2) = productos (db w)
  /\ movimientos (db (DetalleVenta_save l w).2) = movimientos (db w).
Proof.
  intros Hk Hex.
  destruct (DetalleVenta_save l w) as [r w'] eqn:Hres. simpl.
  unfold DetalleVenta_save, DetalleVenta_super_save in Hres.
  destruct (preparar_campos l) as (Epk & _).
  set (l2 := calcular_importe (congelar_precio l)) in *.
  rewrite <- Epk in Hk.
  destruct (DetalleVenta_write_stored l2 k w Hk Hex) as (Hp & Hm & Hc).
  unfold bind at 1 in Hres. unfold bind at 1 in Hres.
  destruct (DetalleVenta_write l2 w) as [[[l2' c]|e] w2]; simpl in *;
    [|injection Hres as <- <-; split; assumption].
  rewrite (Hc l2' c eq_refl) in Hres.
  rewrite stock_effect_skipped in Hres by (left; reflexivity).
  destruct (venta l2') as [v|]; [|injection Hres as <- <-; split; assumption].
  unfold bind at 1 in Hres.
  pose proof (calcular_importe_total_productos v w2) as Hcp.
  pose proof (calcular_importe_total_movimientos v w2) as Hcm.
  destruct (calcular_importe_total v w2) as [[v'|e] w3]; simpl in *;
    injection Hres as <- <-; split; congruence.
Qed.

Lemma editar_linea_no_toca_stock_witness :
  productos (db (DetalleVenta_save linea_cero mundo_vendido).2)
    = productos (db mundo_vendido)
  /\ movimientos (db (DetalleVenta_save linea_cero mundo_vendido).2)
     = movimientos (db mundo_vendido).
Proof.
  apply (editar_linea_no_toca_stock linea_cero 1 mundo_vendido).
  - reflexivity.
  - vm_compute. reflexivity.
Defined.





(** ** Stock movements saved again, and incomplete ones *)

Lemma update_mov_length (r : MovRow) (ms : list MovRow) :
  length (update_mov r ms) = length ms.
Proof. unfold update_mov. apply length_fmap. Qed.

(** [MovimientoStock.save] of a movement whose key is the key of a stored
    row: the row is rewritten in place and the product is handled as for
    a new movement. *)
Lemma MovimientoStock_save_stored (m : MovimientoStock) (k : Z) (p : Producto)
    (pid q : Z) (w : World) :
  ms_pk m = Some k -> ms_producto m = Some p -> p_pk p = Some pid ->
  ms_cantidad m = Some q ->
  existsb (fun x => mr_id x =? k) (movimientos (db w)) = true ->
  MovimientoStock_save m w =
    (Ok (set_ms_producto m (Some (producto_tras_movimiento (tipo m) p q))),
     mkWorld
       (with_productos
          (with_movimientos (db w)
             (update_mov (mkMovRow k pid (tipo m) q (comprobante m))
                         (movimientos (db w)))
             (Z.max (seq_mov (db w)) (k + 1)))
          (<[pid := producto_tras_movimiento (tipo m) p q]> (productos (db w)))
          (Z.max (seq_producto (db w)) (pid + 1)))
       (draws w)).
Proof.
  intros Hk Hp Hpid Hq Hex.
  unfold MovimientoStock_save, MovimientoStock_super_save. run_monad.
  rewrite Hp, Hpid, Hq, Hk, Hex. simpl. rewrite Hp, Hq.
  fold (producto_tras_movimiento (tipo m) p q).
  rewrite (Producto_save_stored _ pid).
  2:{ unfold producto_tras_movimiento. destruct (String.eqb _ _); simpl; exact Hpid. }
  reflexivity.
Qed.

(** X4. Saving an ['entrada'] movement and then saving the same movement
    object again (an edit that changes nothing) adds its quantity to the
    product a second time, while the movement table keeps the single row
    of the first save. *)
Theorem entrada_guardada_dos_veces (p : Producto) (pid q : Z) (c : option string)
    (w : World) :
  p_pk p = Some pid ->
  exists m1 w1 m2 w2,
    MovimientoStock_save (mkMovimientoStock None (Some p) "entrada" (Some q) c) w
      = (Ok m1, w1)
    /\ MovimientoStock_save m1 w1 = (Ok m2, w2)
    /\ cantidad_stock <$> productos (db w1) !! pid = Some (cantidad_stock p + q)
    /\ cantidad_stock <$> productos (db w2) !! pid = Some (cantidad_stock p + q + q)
    /\ length (movimientos (db w1)) = S (length (movimientos (db w)))
    /\ length (movimientos (db w2)) = length (movimientos (db w1)).
Proof.
  intros Hpid.
  eexists. eexists. eexists. eexists.
  split; [apply (MovimientoStock_save_new p pid q "entrada" c w Hpid)|].
  split.
  - apply (MovimientoStock_save_stored _ (seq_mov (db w))
             (producto_tras_movimiento "entrada" p q) pid q).
    + reflexivity.
    + reflexivity.
    + exact Hpid.
    + reflexivity.
    + simpl. rewrite existsb_app. simpl. rewrite Z.eqb_refl.
      rewrite orb_true_r. reflexivity.
  - simpl. rewrite !lookup_insert_eq. simpl.
    rewrite update_mov_length, length_app. simpl.
    repeat split; lia.
Qed.

Lemma entrada_guardada_dos_veces_witness :
  exists m1 w1 m2 w2,
    MovimientoStock_save (mkMovimientoStock None (Some martillo) "entrada" (Some 5) None)
                         mundo
      = (Ok m1, w1)
    /\ MovimientoStock_save m1 w1 = (Ok m2, w2)
    /\ cantidad_stock <$> productos (db w1) !! 1 = Some (cantidad_stock martillo + 5)
    /\ cantidad_stock <$> productos (db w2) !! 1
       = Some (cantidad_stock martillo + 5 + 5)
    /\ length (movimientos (db w1)) = S (length (movimientos (db mundo)))
    /\ length (movimientos (db w2)) = length (movimientos (db w1)).
Proof.
  apply (entrada_guardada_dos_veces martillo 1 5 None mundo). reflexivity.
Defined.

(** X5. A movement without a product, with a product that was never stored,
    or without a quantity is refused, and nothing is written: neither the
    movement nor the product. *)
Theorem movimiento_incompleto_rechazado (m : MovimientoStock) (w : World) :
  (ms_producto m = None -> MovimientoStock_save m w = (Err IntegrityError, w))
  /\ (forall p, ms_producto m = Some p -> p_pk p = None ->
        MovimientoStock_save m w = (Err ValueError, w))
  /\ (forall p pid, ms_producto m = Some p -> p_pk p = Some pid ->
        ms_cantidad m = None ->
        MovimientoStock_save m w = (Err IntegrityError, w)).
Proof.
  unfold MovimientoStock_save, MovimientoStock_super_save. run_monad.
  split; [|split].
  - intros ->. reflexivity.
  - intros p -> ->. reflexivity.
  - intros p pid -> -> ->. reflexivity.
Qed.

Lemma movimiento_incompleto_rechazado_witness :
  MovimientoStock_save movimiento_sin_producto mundo = (Err IntegrityError, mundo).
Proof.
  apply (proj1 (movimiento_incompleto_rechazado movimiento_sin_producto mundo)).
  reflexivity.
Defined.

(** ** What [Venta.save] keeps true of the sale table *)

Lemma pretty_N_go_no_vacio (x : N) (s : string) :
  s <> EmptyString -> pretty_N_go x s <> EmptyString.
Proof.
  revert s. induction (N.lt_wf_0 x) as [x _ IH]. intros s Hs.
  destruct (decide (x = 0%N)) as [->|Hx].
  - rewrite pretty_N_go_0. exact Hs.
  - rewrite pretty_N_go_step by lia. apply IH.
    + apply N.div_lt; lia.
    + discriminate.
Qed.

Lemma pretty_Z_no_vacio (n : Z) : pretty n <> EmptyString.
Proof.
  destruct n as [|p|p].
  - discriminate.
  - change (pretty (Z.pos p)) with (pretty (N.pos p)).
    unfold pretty, pretty_N. rewrite decide_False by discriminate.
    rewrite pretty_N_go_step by lia. apply pretty_N_go_no_vacio. discriminate.
  - discriminate.
Qed.

Lemma numero_de_otra_false (k : option Z) (s : string) (vs : gmap Z Venta) :
  numero_de_otra k s vs = false ->
  forall j u, vs !! j = Some u -> Some j <> k -> numero_comprobante u <> s.
Proof.
  unfold numero_de_otra. intros Hno j u Hu Hj Heq.
  assert (existsb (fun kv : Z * Venta =>
                     negb (bool_decide (Some kv.1 = k))
                     && String.eqb (numero_comprobante kv.2) s)
                  (map_to_list vs) = true) as Ht.
  { apply existsb_exists. exists (j, u). split.
    - apply list_elem_of_In, elem_of_map_to_list. exact Hu.
    - simpl. rewrite bool_decide_eq_false_2 by exact Hj. simpl.
      apply String.eqb_eq. exact Heq. }
  congruence.
Qed.

Lemma generar_loop_inv (vs : gmap Z Venta) (ds : list Z) (s : string)
    (rest : list Z) :
  generar_loop vs ds = (Ok s, rest) ->
  numero_exists s vs = false /\ exists n, n ∈ ds /\ s = pretty n.
Proof.
  induction ds as [|n ds IH]; simpl; [discriminate|].
  destruct (numero_exists (pretty n) vs) eqn:E.
  - intros H. destruct (IH H) as (Hs & m & Hm & ->).
    split; [exact Hs|]. exists m. split; [apply list_elem_of_further; exact Hm|reflexivity].
  - intros [= <- <-]. split; [exact E|].
    exists n. split; [apply list_elem_of_here|reflexivity].
Qed.

(** What [Venta.save] can do to the sale table, whatever its outcome:
    nothing; rewrite the total of a stored row; or write a whole row whose
    number is not empty and is the number of no row under another key. *)
Lemma Venta_save_ventas (v : Venta) (b : bool) (w : World) :
  ventas (db (Venta_save v b w).2) = ventas (db w)
  \/ (exists k row t,
        ventas (db w) !! k = Some row
        /\ ventas (db (Venta_save v b w).2)
           = <[k := set_importe_total row t]> (ventas (db w)))
  \/ (exists k v',
        ventas (db (Venta_save v b w).2) = <[k := v']> (ventas (db w))
        /\ numero_comprobante v' <> EmptyString
        /\ forall j u, ventas (db w) !! j = Some u -> j <> k ->
                       numero_comprobante u <> numero_comprobante v').
Proof.
  destruct (Venta_save v b w) as [r w'] eqn:Hres. simpl.
  unfold Venta_save, atomic in Hres.
  assert (forall (self1 : Venta) (w1 : World),
            db w1 = db w -> numero_comprobante self1 <> EmptyString ->
            let res := Venta_super_save self1 b w1 in
            match res.1 with
            | Ok _ =>
                (exists k row t,
                    ventas (db w) !! k = Some row
                    /\ ventas (db res.2) = <[k := set_importe_total row t]> (ventas (db w)))
                \/ (exists k v',
                       ventas (db res.2) = <[k := v']> (ventas (db w))
                       /\ numero_comprobante v' <> EmptyString
                       /\ forall j u, ventas (db w) !! j = Some u -> j <> k ->
                                      numero_comprobante u <> numero_comprobante v')
            | Err _ => True
            end) as Hsuper.
  { intros self1 w1 Hdb Hn. unfold Venta_super_save. run_monad. rewrite Hdb.
    destruct b.
    - destruct (v_pk self1) as [k|]; simpl; [|exact I].
      destruct (ventas (db w) !! k) as [row|] eqn:Hrow; simpl; [|exact I].
      left. exists k, row, (importe_total self1). auto.
    - destruct (numero_de_otra _ _ _) eqn:Hu; simpl; [exact I|].
      destruct (v_pk self1) as [k|] eqn:Hk; simpl; right.
      + exists k, self1. repeat split; [exact Hn|].
        intros j u Hj Hne. apply (numero_de_otra_false _ _ _ Hu j u Hj). congruence.
      + exists (seq_venta (db w)), (set_v_pk self1 (Some (seq_venta (db w)))).
        repeat split; [exact Hn|].
        intros j u Hj _. apply (numero_de_otra_false _ _ _ Hu j u Hj). discriminate. }
  destruct (numero_comprobante v) eqn:En.
  - unfold bind at 1 in Hres. unfold bind at 1 in Hres.
    unfold generar_numero_comprobante in Hres.
    destruct (generar_loop (ventas (db w)) (draws w)) as [[s|e] ds] eqn:Hg;
      simpl in Hres; [|injection Hres as <- <-; left; reflexivity].
    apply generar_loop_inv in Hg as (_ & n & _ & ->).
    specialize (Hsuper (set_numero_comprobante v (pretty n))
                       (mkWorld (db w) ds) eq_refl (pretty_Z_no_vacio n)).
    simpl in Hsuper.
    destruct (Venta_super_save _ b _) as [[v1|e] w1]; simpl in *;
      injection Hres as <- <-; [right; exact Hsuper | left; reflexivity].
  - unfold bind at 1 in Hres. unfold ret at 1 in Hres.
    specialize (Hsuper v w eq_refl). rewrite En in Hsuper.
    specialize (Hsuper ltac:(discriminate)). simpl in Hsuper.
    destruct (Venta_super_save v b w) as [[v1|e] w1]; simpl in *;
      injection Hres as <- <-; [right; exact Hsuper | left; reflexivity].
Qed.

(** X6. [Venta.save], with or without [update_fields] and whatever its
    outcome, keeps the receipt numbers of the stored sales pairwise
    different and never leaves a stored sale without a number. *)
Theorem Venta_save_conserva_numeros (v : Venta) (b : bool) (w : World) :
  (numeros_unicos (ventas (db w)) ->
   numeros_unicos (ventas (db (Venta_save v b w).2)))
  /\ (con_numero (ventas (db w)) ->
      con_numero (ventas (db (Venta_save v b w).2))).
Proof.
  destruct (Venta_save_ventas v b w)
    as [-> | [(k & row & t & Hrow & ->) | (k & v' & -> & Hn & Hotros)]].
  - split; auto.
  - split.
    + intros Hu k1 k2 v1 v2 H1 H2 Heq.
      rewrite lookup_insert in H1, H2.
      destruct (decide (k = k1)) as [E1|N1], (decide (k = k2)) as [E2|N2];
        simplify_eq; simpl in *; eauto.
    + intros Hc j u Hj. rewrite lookup_insert in Hj.
      destruct (decide (k = j)); simplify_eq; simpl; eauto.
  - split.
    + intros Hu k1 k2 v1 v2 H1 H2 Heq.
      rewrite lookup_insert in H1, H2.
      destruct (decide (k = k1)) as [E1|N1], (decide (k = k2)) as [E2|N2];
        simplify_eq; simpl in *; eauto.
      * exfalso. apply (Hotros k2 v2 H2); congruence.
      * exfalso. apply (Hotros k1 v1 H1); congruence.
    + intros Hc j u Hj. rewrite lookup_insert in Hj.
      destruct (decide (k = j)); simplify_eq; simpl; eauto.
Qed.

Lemma Venta_save_conserva_numeros_witness :
  numeros_unicos (ventas (db (Venta_save venta_nueva false mundo_con_choque).2)).
Proof.
  apply (proj1 (Venta_save_conserva_numeros venta_nueva false mundo_con_choque)).
  replace (ventas (db mundo_con_choque)) with ({[1 := venta_martillos]} : gmap Z Venta)
    by (vm_compute; reflexivity).
  intros k1 k2 v1 v2 H1 H2 _.
  apply lookup_singleton_Some in H1 as [<- _].
  apply lookup_singleton_Some in H2 as [<- _]. reflexivity.
Defined.

(** ** Voiding twice, and voiding a sale with a broken line *)

Lemma numero_de_otra_true (k : option Z) (s : string) (vs : gmap Z Venta) :
  numero_de_otra k s vs = true ->
  exists j u, vs !! j = Some u /\ Some j <> k /\ numero_comprobante u = s.
Proof.
  unfold numero_de_otra. intros H.
  apply existsb_exists in H as ([j u] & Hin & Hp). simpl in Hp.
  apply andb_prop in Hp as [Hj Hs].
  exists j, u. split; [|split].
  - apply elem_of_map_to_list, list_elem_of_In. exact Hin.
  - apply negb_true_iff, bool_decide_eq_false in Hj. exact Hj.
  - apply String.eqb_eq. exact Hs.
Qed.

Lemma numero_de_otra_insert (k : Z) (s : string) (v' : Venta) (vs : gmap Z Venta) :
  numero_de_otra (Some k) s vs = false ->
  numero_de_otra (Some k) s (<[k := v']> vs) = false.
Proof.
  intros Hno. destruct (numero_de_otra (Some k) s (<[k := v']> vs)) eqn:E;
    [|reflexivity].
  apply numero_de_otra_true in E as (j & u & Hj & Hne & Hs).
  assert (j <> k) as Hjk by congruence.
  rewrite lookup_insert_ne in Hj by congruence.
  exfalso. exact (numero_de_otra_false _ _ _ Hno j u Hj Hne Hs).
Qed.

Lemma linea_revertible_devuelta (ps ps' : gmap Z Producto) (f : Z -> Z)
    (r : DetalleRow) :
  (forall pid, ps' !! pid = devolver (f pid) <$> ps !! pid) ->
  linea_revertible ps' r = linea_revertible ps r.
Proof.
  intros H. unfold linea_revertible.
  destruct (dr_producto_id r) as [pid|]; [|reflexivity].
  destruct (dr_cantidad r); [|reflexivity].
  rewrite H. destruct (ps !! pid); reflexivity.
Qed.

Lemma forallb_igual {A} (f g : A -> bool) (l : list A) :
  (forall x, f x = g x) -> forallb f l = forallb g l.
Proof.
  intros H. induction l as [|x l IH]; simpl; [reflexivity|].
  rewrite H, IH. reflexivity.
Qed.

(** X7. [venta_anular] has no guard on the void flag: a second POST for the
    same sale succeeds like the first and gives the quantities of its
    lines back to the products once more. *)
Theorem venta_anular_dos_veces (request : Request) (pk : Z) (v : Venta) (w : World) :
  method request = "POST" ->
  ventas (db w) !! pk = Some v -> v_pk v = Some pk ->
  numero_comprobante v <> EmptyString ->
  numero_de_otra (Some pk) (numero_comprobante v) (ventas (db w)) = false ->
  forallb (linea_revertible (productos (db w))) (detalleventa_set pk (db w)) = true ->
  exists w1 w2,
    venta_anular request pk w = (Ok (redirect "venta_lista"), w1)
    /\ venta_anular request pk w1 = (Ok (redirect "venta_lista"), w2)
    /\ forall pid p,
         productos (db w) !! pid = Some p ->
         cantidad_stock <$> productos (db w2) !! pid
         = Some (cantidad_stock p
                 + 2 * cantidad_devuelta pid (detalleventa_set pk (db w))).
Proof.
  intros Hm Hv Hpk Hn Hu Hall.
  destruct (venta_anular_ok request pk v w Hm Hv Hpk Hn Hu Hall)
    as (w1 & Hrun1 & Hven1 & Hdet1 & _ & Hps1).
  assert (detalleventa_set pk (db w1) = detalleventa_set pk (db w)) as Hset
    by (unfold detalleventa_set; rewrite Hdet1; reflexivity).
  destruct (venta_anular_ok request pk (set_anulada v true) w1) as
    (w2 & Hrun2 & _ & _ & _ & Hps2); try assumption.
  - rewrite Hven1. apply lookup_insert_eq.
  - rewrite Hven1. simpl. apply numero_de_otra_insert. exact Hu.
  - rewrite Hset. rewrite <- Hall. apply forallb_igual. intros r.
    apply (linea_revertible_devuelta _ _
             (fun pid => cantidad_devuelta pid (detalleventa_set pk (db w)))).
    exact Hps1.
  - exists w1, w2. split; [exact Hrun1|]. split; [exact Hrun2|].
    intros pid p Hp. rewrite Hps2, Hps1, Hp, Hset. simpl. f_equal. lia.
Qed.

Lemma venta_anular_dos_veces_witness :
  exists w1 w2,
    venta_anular anular_venta 1 mundo_vendido = (Ok (redirect "venta_lista"), w1)
    /\ venta_anular anular_venta 1 w1 = (Ok (redirect "venta_lista"), w2)
    /\ forall pid p,
         productos (db mundo_vendido) !! pid = Some p ->
         cantidad_stock <$> productos (db w2) !! pid
         = Some (cantidad_stock p
                 + 2 * cantidad_devuelta pid (detalleventa_set 1 (db mundo_vendido))).
Proof.
  apply (venta_anular_dos_veces anular_venta 1 venta_martillos mundo_vendido).
  - reflexivity.
  - vm_compute. reflexivity.
  - reflexivity.
  - discriminate.
  - vm_compute. reflexivity.
  - vm_compute. reflexivity.
Defined.

Lemma revertir_stock_app (l1 l2 : list DetalleRow) (w : World) :
  revertir_stock (l1 ++ l2) w =
    match revertir_stock l1 w with
    | (Ok _, w1) => revertir_stock l2 w1
    | (Err e, w1) => (Err e, w1)
    end.
Proof.
  revert w. induction l1 as [|r l1 IH]; intros w; [reflexivity|].
  simpl. destruct (dr_producto_id r) as [pid|]; [|reflexivity].
  unfold bind, get_db, raise. simpl.
  destruct (productos (db w) !! pid); [|reflexivity].
  destruct (dr_cantidad r); [|reflexivity].
  destruct (Producto_save _ w) as [[p'|e] w1]; [apply IH | reflexivity].
Qed.

(** X8. [venta_anular] is not wrapped in a transaction: when a line of the
    sale has no product, the request fails at that line, and by then the
    sale is stored as void and the lines before it have given their
    quantities back. *)
Theorem venta_anular_a_medias (request : Request) (pk : Z) (v : Venta) (w : World)
    (buenas : list DetalleRow) (mala : DetalleRow) (resto : list DetalleRow) :
  method request = "POST" ->
  ventas (db w) !! pk = Some v -> v_pk v = Some pk ->
  numero_comprobante v <> EmptyString ->
  numero_de_otra (Some pk) (numero_comprobante v) (ventas (db w)) = false ->
  detalleventa_set pk (db w) = buenas ++ mala :: resto ->
  forallb (linea_revertible (productos (db w))) buenas = true ->
  dr_producto_id mala = None ->
  exists w',
    venta_anular request pk w = (Err AttributeError, w')
    /\ anulada <$> ventas (db w') !! pk = Some true
    /\ forall pid,
         productos (db w') !! pid
         = devolver (cantidad_devuelta pid buenas) <$> productos (db w) !! pid.
Proof.
  intros Hm Hv Hpk Hn Hu Hset Hall Hmala.
  unfold venta_anular, get_Venta_or_404.
  unfold bind at 1. unfold bind at 1. unfold get_db at 1. rewrite Hv.
  unfold ret at 1. rewrite Hm, String.eqb_refl.
  unfold bind at 1.
  rewrite (Venta_save_ok (set_anulada v true) pk) by assumption.
  unfold bind at 1. unfold get_db at 1.
  unfold bind at 1.
  change (detalleventa_set pk (db _)) with (detalleventa_set pk (db w)).
  rewrite Hset, revertir_stock_app.
  match goal with
  | |- context [revertir_stock buenas ?w1] =>
      destruct (revertir_stock_ok buenas w1) as (w' & Hrun & Hven & _ & _ & _ & Hps);
        [exact Hall|]
  end.
  rewrite Hrun. simpl revertir_stock. rewrite Hmala.
  exists w'. split; [reflexivity|]. split.
  - rewrite Hven. simpl. rewrite lookup_insert_eq. reflexivity.
  - exact Hps.
Qed.

Lemma venta_anular_a_medias_witness :
  exists w',
    venta_anular anular_venta 1 mundo_con_linea_sin_producto = (Err AttributeError, w')
    /\ anulada <$> ventas (db w') !! 1 = Some true
    /\ forall pid,
         productos (db w') !! pid
         = devolver (cantidad_devuelta pid
                       [mkDetalleRow 1 (Some 1) (Some 1) (Some 3) 10000 30000 1000])
             <$> productos (db mundo_con_linea_sin_producto) !! pid.
Proof.
  apply (venta_anular_a_medias anular_venta 1 venta_martillos
           mundo_con_linea_sin_producto
           [mkDetalleRow 1 (Some 1) (Some 1) (Some 3) 10000 30000 1000]
           (mkDetalleRow 2 (Some 1) None (Some 1) 500 500 1001) []).
  - reflexivity.
  - vm_compute. reflexivity.
  - reflexivity.
  - discriminate.
  - vm_compute. reflexivity.
  - vm_compute. reflexivity.
  - vm_compute. reflexivity.
  - reflexivity.
Defined.

(** ** [venta_agregar]: all or nothing *)

(** X9. When [venta_agregar] ends in an exception, whatever it is and however
    many lines were stored before it, the store is the one the request
    found: the sale saved at the start and its lines are undone. *)
Theorem venta_agregar_todo_o_nada (request : Request) (w : World) (e : Error) :
  (venta_agregar request w).1 = Err e ->
  db (venta_agregar request w).2 = db w.
Proof.
  unfold venta_agregar, atomic.
  match goal with
  | |- context [let (_, _) := ?m w in _] => destruct (m w) as [[r|e'] w']
  end; simpl; [discriminate | reflexivity].
Qed.

Lemma venta_agregar_todo_o_nada_witness :
  (venta_agregar pedido_con_producto_ajeno mundo).1 = Err Http404
  /\ db (venta_agregar pedido_con_producto_ajeno mundo).2 = db mundo.
Proof.
  assert ((venta_agregar pedido_con_producto_ajeno mundo).1 = Err Http404) as H
    by (vm_compute; reflexivity).
  split; [exact H|].
  exact (venta_agregar_todo_o_nada pedido_con_producto_ajeno mundo Http404 H).
Defined.

Lemma zip_sobrante {A B} (l : list A) (k : list B) (extra : list A) :
  length l = length k -> zip (l ++ extra) k = zip l k.
Proof.
  revert k. induction l as [|a l IH]; intros [|b k] Hlen; simpl in *;
    try discriminate.
  - destruct extra; reflexivity.
  - f_equal. apply IH. lia.
Qed.

Lemma zip_sobrante_r {A B} (l : list A) (k : list B) (extra : list B) :
  length l = length k -> zip l (k ++ extra) = zip l k.
Proof.
  revert k. induction l as [|a l IH]; intros [|b k] Hlen; simpl in *;
    try discriminate.
  - reflexivity.
  - f_equal. apply IH. lia.
Qed.

(** X10. The lines of a new sale are the pairs of [zip(productos_ids,
    cantidades)]: products sent without a quantity, and quantities sent
    without a product, are dropped without an error. *)
Theorem venta_agregar_ignora_sobrantes (request : Request) (extra : list string)
    (w : World) :
  length (post_producto request) = length (post_cantidad request) ->
  venta_agregar (set_post_producto request (post_producto request ++ extra)) w
    = venta_agregar request w
  /\ venta_agregar (set_post_cantidad request (post_cantidad request ++ extra)) w
     = venta_agregar request w.
Proof.
  intros Hlen. unfold venta_agregar, VentaForm_is_valid. simpl.
  rewrite (zip_sobrante _ _ extra Hlen), (zip_sobrante_r _ _ extra Hlen).
  split; reflexivity.
Qed.

Lemma venta_agregar_ignora_sobrantes_witness :
  venta_agregar (set_post_producto pedido_martillos
                   (post_producto pedido_martillos ++ ["99"])) mundo
    = venta_agregar pedido_martillos mundo
  /\ venta_agregar (set_post_cantidad pedido_martillos
                      (post_cantidad pedido_martillos ++ ["99"])) mundo
     = venta_agregar pedido_martillos mundo.
Proof.
  apply (venta_agregar_ignora_sobrantes pedido_martillos ["99"] mundo).
  reflexivity.
Defined.

(** [int] answers a text of ASCII characters with a number or with
    [ValueError]. *)
Lemma int_isascii (s : string) :
  isascii s = true -> (exists k, int s = Ok k) \/ int s = Err ValueError.
Proof.
  unfold int. intros ->. simpl.
  match goal with
  | |- context [match ?x with Some _ => _ | None => _ end] => destruct x as [z|]
  end; [left; exists z; reflexivity | right; reflexivity].
Qed.

Lemma clean_choice_isascii (s : string) (keys : gset Z) :
  isascii s = true ->
  clean_choice s keys = Ok None
  \/ exists k, int s = Ok k /\ k ∈ keys /\ clean_choice s keys = Ok (Some k).
Proof.
  intros Ha. unfold clean_choice.
  destruct (int_isascii s Ha) as [[k ->] | ->]; [|left; reflexivity].
  destruct (bool_decide (k ∈ keys)) eqn:E; [|left; reflexivity].
  right. exists k. apply bool_decide_eq_true in E. auto.
Qed.

(** X11. A request that is not a POST, or whose client and payment method
    are ASCII texts one of which is not the key of a stored record, gets
    the form page again: nothing is stored and no receipt number is
    drawn. *)
Theorem venta_agregar_sin_efecto (request : Request) (w : World) :
  method request <> "POST"
  \/ (isascii (post_cliente request) = true
      /\ isascii (post_medio_de_pago request) = true
      /\ ((forall k, int (post_cliente request) = Ok k -> k ∉ clientes (db w))
          \/ (forall k, int (post_medio_de_pago request) = Ok k ->
                k ∉ medios (db w)))) ->
  venta_agregar request w = (Ok (render "ventas/venta_agregar.html"), w).
Proof.
  intros H. unfold venta_agregar, atomic.
  destruct (String.eqb (method request) "POST") eqn:Em; [|reflexivity].
  apply String.eqb_eq in Em.
  assert (VentaForm_is_valid request (db w) = Ok None) as Hinv.
  { destruct H as [H | (Hac & Ham & H)]; [congruence|].
    unfold VentaForm_is_valid.
    destruct (clean_choice_isascii (post_cliente request) (clientes (db w)) Hac)
      as [-> | (c & Hc & Hcin & ->)];
    destruct (clean_choice_isascii (post_medio_de_pago request) (medios (db w)) Ham)
      as [-> | (m & Hmp & Hmin & ->)]; try reflexivity.
    destruct H as [H | H]; exfalso; [exact (H c Hc Hcin) | exact (H m Hmp Hmin)]. }
  unfold bind at 1. unfold get_db at 1.
  unfold bind at 1. unfold lift at 1. rewrite Hinv. reflexivity.
Qed.

Lemma venta_agregar_sin_efecto_witness :
  venta_agregar pedido_de_desconocido mundo
  = (Ok (render "ventas/venta_agregar.html"), mundo).
Proof.
  apply (venta_agregar_sin_efecto pedido_de_desconocido mundo).
  right. split; [reflexivity|]. split; [reflexivity|].
  left. intros k H. vm_compute in H. injection H as <-.
  change (clientes (db mundo)) with ({[7]} : gset Z).
  intros Hin. apply elem_of_singleton in Hin. discriminate Hin.
Defined.

(** ** A sale of one line, end to end *)










(** ** Deleting a product *)

(** X14. A POST to [productos_confirm_delete] for a stored product that is
    on an invoice line is refused with [ProtectedError] and removes
    nothing. For a product on no invoice line it removes the product
    together with every sale line and every stock movement that refers to
    it, and nothing else: the other products, lines and movements are
    kept, and the sale table is not written, so the totals of the sales
    that lose a line stay as they were. *)
Theorem producto_borrado_en_cascada (request : Request) (pk : Z) (w : World) :
  method request = "POST" ->
  is_Some (productos (db w) !! pk) ->
  (facturado pk (db w) = true ->
   productos_confirm_delete request pk w = (Err ProtectedError, w))
  /\ (facturado pk (db w) = false ->
      exists w',
        productos_confirm_delete request pk w = (Ok (redirect "productos_list"), w')
        /\ productos (db w') !! pk = None
        /\ (forall j, j <> pk -> productos (db w') !! j = productos (db w) !! j)
        /\ (forall r, r ∈ detalles (db w')
                      <-> r ∈ detalles (db w) /\ dr_producto_id r <> Some pk)
        /\ (forall r, r ∈ movimientos (db w')
                      <-> r ∈ movimientos (db w) /\ mr_producto_id r <> pk)
        /\ ventas (db w') = ventas (db w)
        /\ detalles_factura (db w') = detalles_factura (db w)).
Proof.
  intros Hm [p Hp]. unfold productos_confirm_delete, Producto_delete.
  run_monad. rewrite Hp, Hm, String.eqb_refl. simpl.
  split; intros Hf; rewrite Hf; simpl.
  - reflexivity.
  - eexists. split; [reflexivity|]. simpl.
    split; [apply lookup_delete_eq|].
    split; [intros j Hj; apply lookup_delete_ne; congruence|].
    split; [|split; [|split; reflexivity]].
    + intros r. rewrite !list_elem_of_In, filter_In.
      rewrite negb_true_iff, bool_decide_eq_false. reflexivity.
    + intros r. rewrite !list_elem_of_In, filter_In.
      rewrite negb_true_iff, Z.eqb_neq. reflexivity.
Qed.

Lemma producto_borrado_en_cascada_witness :
  (facturado 1 (db mundo_vendido) = true ->
   productos_confirm_delete borrar_martillo 1 mundo_vendido
   = (Err ProtectedError, mundo_vendido))
  /\ (facturado 1 (db mundo_vendido) = false ->
      exists w',
        productos_confirm_delete borrar_martillo 1 mundo_vendido
          = (Ok (redirect "productos_list"), w')
        /\ productos (db w') !! 1 = None
        /\ (forall j, j <> 1 ->
              productos (db w') !! j = productos (db mundo_vendido) !! j)
        /\ (forall r, r ∈ detalles (db w')
                      <-> r ∈ detalles (db mundo_vendido) /\ dr_producto_id r <> Some 1)
        /\ (forall r, r ∈ movimientos (db w')
                      <-> r ∈ movimientos (db mundo_vendido) /\ mr_producto_id r <> 1)
        /\ ventas (db w') = ventas (db mundo_vendido)
        /\ detalles_factura (db w') = detalles_factura (db mundo_vendido)).
Proof.
  apply (producto_borrado_en_cascada borrar_martillo 1 mundo_vendido).
  - reflexivity.
  - exists (mkProducto (Some 1) "Martillo" 10000 7). vm_compute. reflexivity.
Defined.

(** The hammer on an invoice line cannot be deleted: the view ends in
    [ProtectedError] and the hammer, its sale line and its movement stay. *)
Example martillo_facturado :
  productos_confirm_delete borrar_martillo 1 mundo_facturado
  = (Err ProtectedError, mundo_facturado)
  /\ is_Some (productos (db mundo_facturado) !! 1)
  /\ length (detalles (db mundo_facturado)) = 1%nat
  /\ length (movimientos (db mundo_facturado)) = 1%nat.
Proof.
  split; [vm_compute; reflexivity|].
  split; [eexists; vm_compute; reflexivity|].
  split; vm_compute; reflexivity.
Qed.

(** ** Two lines that hold two copies of one product *)



(** ** The list of sales *)

#[global] Instance mas_reciente_trans : Transitive mas_reciente.
Proof. unfold mas_reciente. intros a b c. lia. Qed.

#[global] Instance mas_reciente_total : Total mas_reciente.
Proof. unfold mas_reciente. intros a b. lia. Qed.

Lemma StronglySorted_filter {A} (R : relation A) (f : A -> bool) (l : list A) :
  StronglySorted R l -> StronglySorted R (List.filter f l).
Proof.
  induction 1 as [|x l Hl IH Hx]; simpl; [constructor|].
  destruct (f x); [|exact IH].
  constructor; [exact IH|].
  apply List.Forall_forall. intros y Hy. apply filter_In in Hy as [Hy _].
  rewrite List.Forall_forall in Hx. apply Hx. exact Hy.
Qed.

Section ListaDeVentas.
Variable strptime_fecha : string -> option Z.
Variable fecha_igual : Z -> Z -> bool.
Variable icontains : string -> string -> bool.
Variable nombre_de_cliente : Z -> option string.

Abbreviation listado :=
  (VentaListView_get_queryset strptime_fecha fecha_igual icontains
                              nombre_de_cliente).

Lemma base_elem (d : DB) (v : Venta) :
  v ∈ merge_sort mas_reciente
        (List.filter (fun v => negb (anulada v)) (snd <$> map_to_list (ventas d)))
  <-> anulada v = false /\ exists k, ventas d !! k = Some v.
Proof.
  rewrite merge_sort_Permutation, list_elem_of_In, filter_In, <- list_elem_of_In.
  rewrite list_elem_of_fmap, negb_true_iff. split.
  - intros [([k u] & -> & Hin) Han]. split; [exact Han|].
    exists k. apply elem_of_map_to_list. exact Hin.
  - intros [Han [k Hk]]. split; [|exact Han].
    exists (k, v). split; [reflexivity|]. apply elem_of_map_to_list. exact Hk.
Qed.

Lemma listado_sublista (q : option string) (d : DB) (v : Venta) :
  v ∈ listado q d ->
  v ∈ merge_sort mas_reciente
        (List.filter (fun v => negb (anulada v)) (snd <$> map_to_list (ventas d))).
Proof.
  unfold VentaListView_get_queryset.
  destruct q as [[|c s]|]; try (intros H; exact H).
  destruct (strptime_fecha (String c s));
    rewrite !list_elem_of_In, filter_In; tauto.
Qed.

(** X16. Whatever the search text, the list of sales holds stored sales
    that are not void and only those, the later before the earlier;
    without a search text it holds every stored sale that is not void. *)
Theorem listado_de_ventas (q : option string) (d : DB) :
  (forall v, v ∈ listado q d ->
             anulada v = false /\ exists k, ventas d !! k = Some v)
  /\ StronglySorted mas_reciente (listado q d)
  /\ (q = None \/ q = Some EmptyString ->
      forall k v, ventas d !! k = Some v -> anulada v = false ->
                  v ∈ listado q d).
Proof.
  split; [|split].
  - intros v Hv. apply base_elem, (listado_sublista q). exact Hv.
  - unfold VentaListView_get_queryset.
    pose proof (StronglySorted_merge_sort mas_reciente
                  (List.filter (fun v => negb (anulada v))
                               (snd <$> map_to_list (ventas d)))) as Hs.
    destruct q as [[|c s]|]; try exact Hs.
    destruct (strptime_fecha (String c s)); apply StronglySorted_filter; exact Hs.
  - intros Hq k v Hk Han.
    assert (listado q d
            = merge_sort mas_reciente
                (List.filter (fun v => negb (anulada v))
                             (snd <$> map_to_list (ventas d)))) as ->
      by (destruct Hq as [-> | ->]; reflexivity).
    apply base_elem. split; [exact Han|]. exists k. exact Hk.
Qed.

(** X17. After a successful POST to [venta_anular], the sale is still stored
    but no search lists it any more (in a store where every sale
    carries its own key). *)
Theorem venta_anulada_no_listada (request : Request) (pk : Z) (v : Venta)
    (w : World) (q : option string) :
  method request = "POST" ->
  ventas (db w) !! pk = Some v -> v_pk v = Some pk ->
  numero_comprobante v <> EmptyString ->
  numero_de_otra (Some pk) (numero_comprobante v) (ventas (db w)) = false ->
  forallb (linea_revertible (productos (db w))) (detalleventa_set pk (db w)) = true ->
  claves_propias (ventas (db w)) ->
  exists w',
    venta_anular request pk w = (Ok (redirect "venta_lista"), w')
    /\ is_Some (ventas (db w') !! pk)
    /\ (forall u, u ∈ listado q (db w') -> v_pk u <> Some pk)
    /\ (forall u, u ∈ listado q (db w') -> u ∈ listado q (db w)).
Proof.
  intros Hm Hv Hpk Hn Hu Hall Hkeys.
  destruct (venta_anular_ok request pk v w Hm Hv Hpk Hn Hu Hall)
    as (w' & Hrun & Hven & _).
  exists w'. split; [exact Hrun|].
  split; [rewrite Hven, lookup_insert_eq; eauto|].
  assert (forall u, u ∈ listado q (db w') ->
                    exists j, j <> pk /\ ventas (db w) !! j = Some u
                              /\ anulada u = false) as Hlisted.
  { intros u Hu'. apply listado_sublista, base_elem in Hu' as [Han [j Hj]].
    rewrite Hven in Hj. rewrite lookup_insert in Hj.
    destruct (decide (pk = j)) as [<-|Hne].
    - injection Hj as <-. discriminate Han.
    - exists j. split; [congruence|]. split; assumption. }
  split.
  - intros u Hu'. destruct (Hlisted u Hu') as (j & Hj & Hju & _).
    rewrite (Hkeys j u Hju). congruence.
  - intros u Hu'. destruct (Hlisted u Hu') as (j & Hj & Hju & Han).
    revert Hu'. unfold VentaListView_get_queryset.
    assert (u ∈ merge_sort mas_reciente
                  (List.filter (fun v => negb (anulada v))
                               (snd <$> map_to_list (ventas (db w))))) as Hbase
      by (apply base_elem; split; [exact Han | exists j; exact Hju]).
    destruct q as [[|c s]|]; try (intros _; exact Hbase).
    destruct (strptime_fecha (String c s));
      rewrite !list_elem_of_In, !filter_In, <- !list_elem_of_In; tauto.
Qed.
End ListaDeVentas.

Lemma listado_de_ventas_witness :
  venta_martillos
    ∈ VentaListView_get_queryset sin_fechas misma_fecha contiene sin_nombres
        (Some "1234") (db mundo_vendido)
  /\ anulada venta_martillos = false
  /\ exists k, ventas (db mundo_vendido) !! k = Some venta_martillos.
Proof.
  assert (venta_martillos
            ∈ VentaListView_get_queryset sin_fechas misma_fecha contiene sin_nombres
                (Some "1234") (db mundo_vendido)) as H.
  { replace (VentaListView_get_queryset sin_fechas misma_fecha contiene sin_nombres
               (Some "1234") (db mundo_vendido))
      with [venta_martillos] by (vm_compute; reflexivity).
    apply list_elem_of_here. }
  split; [exact H|].
  exact (proj1 (listado_de_ventas sin_fechas misma_fecha contiene sin_nombres
                  (Some "1234") (db mundo_vendido)) venta_martillos H).
Defined.

(** The sale of the example is listed under the start of its number, and
    is not listed once it is void. *)
Example listado_martillos :
  VentaListView_get_queryset sin_fechas misma_fecha contiene sin_nombres
    (Some "1234") (db mundo_vendido) = [venta_martillos]
  /\ VentaListView_get_queryset sin_fechas misma_fecha contiene sin_nombres
       (Some "1234") (db mundo_anulado) = [].
Proof. split; vm_compute; reflexivity. Qed.

Lemma venta_anulada_no_listada_witness :
  exists w',
    venta_anular anular_venta 1 mundo_vendido = (Ok (redirect "venta_lista"), w')
    /\ is_Some (ventas (db w') !! 1)
    /\ (forall u,
          u ∈ VentaListView_get_queryset sin_fechas misma_fecha contiene sin_nombres
                None (db w') -> v_pk u <> Some 1)
    /\ (forall u,
          u ∈ VentaListView_get_queryset sin_fechas misma_fecha contiene sin_nombres
                None (db w') ->
          u ∈ VentaListView_get_queryset sin_fechas misma_fecha contiene sin_nombres
                None (db mundo_vendido)).
Proof.
  apply (venta_anulada_no_listada sin_fechas misma_fecha contiene sin_nombres
           anular_venta 1 venta_martillos mundo_vendido None).
  - reflexivity.
  - vm_compute. reflexivity.
  - reflexivity.
  - discriminate.
  - vm_compute. reflexivity.
  - vm_compute. reflexivity.
  - replace (ventas (db mundo_vendido)) with ({[1 := venta_martillos]} : gmap Z Venta)
      by (vm_compute; reflexivity).
    intros k v H. apply lookup_singleton_Some in H as [<- <-]. reflexivity.
Defined.

(** ** The purchases of a client *)

(** X18. For a stored client and no search text, the purchases listed are the
    stored sales of that client, void ones included; with any search text
    the view fails on its field lookup; for a client that is not stored it
    answers 404. *)
Theorem compras_de_cliente (pk : Z) (q : option string) (d : DB) :
  (pk ∈ clientes d -> q = None \/ q = Some EmptyString ->
   exists l, clienteCompras_get_queryset pk q d = compras l
             /\ forall v, v ∈ l <-> cliente v = Some pk
                                    /\ exists k, ventas d !! k = Some v)
  /\ (pk ∈ clientes d -> (exists c s, q = Some (String c s)) ->
      clienteCompras_get_queryset pk q d = compras_FieldError)
  /\ (pk ∉ clientes d -> clienteCompras_get_queryset pk q d = compras_404).
Proof.
  unfold clienteCompras_get_queryset. split; [|split].
  - intros Hpk Hq. rewrite bool_decide_eq_true_2 by exact Hpk.
    eexists. split; [destruct Hq as [-> | ->]; reflexivity|].
    intros v. rewrite list_elem_of_In, filter_In, <- list_elem_of_In.
    rewrite list_elem_of_fmap, bool_decide_eq_true. split.
    + intros [([k u] & -> & Hin) Hc]. split; [exact Hc|].
      exists k. apply elem_of_map_to_list. exact Hin.
    + intros [Hc [k Hk]]. split; [|exact Hc].
      exists (k, v). split; [reflexivity|]. apply elem_of_map_to_list. exact Hk.
  - intros Hpk (c & s & ->). rewrite bool_decide_eq_true_2 by exact Hpk.
    reflexivity.
  - intros Hpk. rewrite bool_decide_eq_false_2 by exact Hpk. reflexivity.
Qed.

Lemma compras_de_cliente_witness :
  exists l, clienteCompras_get_queryset 7 None (db mundo_anulado) = compras l
            /\ forall v, v ∈ l <-> cliente v = Some 7
                                   /\ exists k, ventas (db mundo_anulado) !! k = Some v.
Proof.
  apply (proj1 (compras_de_cliente 7 None (db mundo_anulado))).
  - change (clientes (db mundo_anulado)) with ({[7]} : gset Z).
    apply elem_of_singleton. reflexivity.
  - left. reflexivity.
Defined.

(** The voided sale of the example is still among the purchases of its
    client. *)
Example compras_con_anulada :
  clienteCompras_get_queryset 7 None (db mundo_anulado)
  = compras [venta_martillos_anulada].
Proof. vm_compute. reflexivity. Qed.

(** ** The seed script of categories and suppliers *)

Lemma filter_nombre_nil (n : string) (rows : list Nombrado) :
  n ∉ (n_nombre <$> rows) ->
  List.filter (fun r => String.eqb (n_nombre r) n) rows = [].
Proof.
  induction rows as [|r rows IH]; simpl; [reflexivity|].
  intros Hn. apply not_elem_of_cons in Hn as [Hne Hn].
  destruct (String.eqb (n_nombre r) n) eqn:E.
  - apply String.eqb_eq in E. congruence.
  - apply IH. exact Hn.
Qed.

Lemma filter_nombre_uno (n : string) (rows : list Nombrado) :
  NoDup (n_nombre <$> rows) -> n ∈ (n_nombre <$> rows) ->
  exists r, List.filter (fun r => String.eqb (n_nombre r) n) rows = [r].
Proof.
  induction rows as [|r rows IH]; simpl; intros Hnd Hin.
  - apply elem_of_nil in Hin. destruct Hin.
  - apply NoDup_cons in Hnd as [Hr Hnd].
    destruct (String.eqb (n_nombre r) n) eqn:E.
    + apply String.eqb_eq in E. subst n.
      rewrite (filter_nombre_nil _ _ Hr). exists r. reflexivity.
    + apply String.eqb_neq in E. apply elem_of_cons in Hin as [Hin|Hin];
        [congruence|]. apply IH; assumption.
Qed.

Lemma get_or_create_ok (n : string) (t : Tabla) :
  NoDup (nombres_de t) ->
  exists t',
    get_or_create n t = inl t'
    /\ NoDup (nombres_de t')
    /\ n ∈ nombres_de t'
    /\ (n ∈ nombres_de t -> t' = t)
    /\ (exists nuevas, filas t' = filas t ++ nuevas).
Proof.
  unfold nombres_de, get_or_create. intros Hnd.
  destruct (decide (n ∈ (n_nombre <$> filas t))) as [Hin|Hout].
  - destruct (filter_nombre_uno n (filas t) Hnd Hin) as [r ->].
    exists t. repeat split; auto. exists []. rewrite app_nil_r. reflexivity.
  - rewrite (filter_nombre_nil n (filas t) Hout).
    eexists. split; [reflexivity|]. simpl. rewrite fmap_app. simpl.
    split; [|split; [|split]].
    + apply NoDup_app. split; [exact Hnd|]. split.
      * intros x Hx Hx'. apply list_elem_of_singleton in Hx'. congruence.
      * apply NoDup_singleton.
    + apply elem_of_app. right. apply list_elem_of_here.
    + intros Hin. contradiction.
    + eexists. reflexivity.
Qed.

Lemma sembrar_ok (ns : list string) (t : Tabla) :
  NoDup (nombres_de t) ->
  exists t',
    sembrar ns t = inl t'
    /\ NoDup (nombres_de t')
    /\ (forall n, n ∈ ns -> n ∈ nombres_de t')
    /\ (forall n, n ∈ nombres_de t -> n ∈ nombres_de t')
    /\ ((forall n, n ∈ ns -> n ∈ nombres_de t) -> t' = t)
    /\ (exists nuevas, filas t' = filas t ++ nuevas).
Proof.
  revert t. induction ns as [|n ns IH]; intros t Hnd; simpl.
  - exists t. repeat split; auto.
    + intros n Hn. apply elem_of_nil in Hn. destruct Hn.
    + exists []. rewrite app_nil_r. reflexivity.
  - destruct (get_or_create_ok n t Hnd) as (t1 & -> & Hnd1 & Hn1 & Hsame1 & add1 & Hf1).
    destruct (IH t1 Hnd1) as (t' & Hrun & Hnd' & Hall & Hmono & Hsame & add2 & Hf2).
    assert (forall x, x ∈ nombres_de t -> x ∈ nombres_de t1) as Hmono1.
    { intros x Hx. unfold nombres_de in *. rewrite Hf1, fmap_app.
      apply elem_of_app. left. exact Hx. }
    exists t'. split; [exact Hrun|]. split; [exact Hnd'|].
    split; [|split; [|split]].
    + intros x Hx. apply elem_of_cons in Hx as [->|Hx]; [apply Hmono; exact Hn1|].
      apply Hall. exact Hx.
    + intros x Hx. apply Hmono, Hmono1. exact Hx.
    + intros Hpresent.
      assert (t1 = t) as E by (apply Hsame1, Hpresent, list_elem_of_here).
      subst t1. apply Hsame. intros x Hx. apply Hpresent.
      apply list_elem_of_further. exact Hx.
    + exists (add1 ++ add2). rewrite Hf2, Hf1, app_assoc. reflexivity.
Qed.

(** X19. On tables in which no name is repeated, the seed script ends
    without an exception, leaves every category and supplier of its two
    lists in the tables, keeps the rows that were there (new ones are
    appended), and run a second time changes nothing. *)
Theorem sembrar_idempotente (c p : Tabla) :
  NoDup (nombres_de c) -> NoDup (nombres_de p) ->
  exists c' p',
    create_categories_and_providers (c, p) = inl (c', p')
    /\ (forall n, n ∈ categorias_nombres -> n ∈ nombres_de c')
    /\ (forall n, n ∈ proveedores_nombres -> n ∈ nombres_de p')
    /\ (exists nuevas, filas c' = filas c ++ nuevas)
    /\ (exists nuevas, filas p' = filas p ++ nuevas)
    /\ create_categories_and_providers (c', p') = inl (c', p').
Proof.
  intros Hc Hp. unfold create_categories_and_providers. simpl fst. simpl snd.
  destruct (sembrar_ok categorias_nombres c Hc)
    as (c' & Hrc & Hndc & Hallc & _ & _ & Haddc).
  destruct (sembrar_ok proveedores_nombres p Hp)
    as (p' & Hrp & Hndp & Hallp & _ & _ & Haddp).
  rewrite Hrc, Hrp. exists c', p'. split; [reflexivity|].
  split; [exact Hallc|]. split; [exact Hallp|].
  split; [exact Haddc|]. split; [exact Haddp|].
  simpl fst. simpl snd.
  destruct (sembrar_ok categorias_nombres c' Hndc) as (c2 & -> & _ & _ & _ & Hsc & _).
  destruct (sembrar_ok proveedores_nombres p' Hndp) as (p2 & -> & _ & _ & _ & Hsp & _).
  rewrite (Hsc Hallc), (Hsp Hallp). reflexivity.
Qed.

Lemma sembrar_idempotente_witness :
  exists c' p',
    create_categories_and_providers (tabla_vacia, tabla_vacia) = inl (c', p')
    /\ (forall n, n ∈ categorias_nombres -> n ∈ nombres_de c')
    /\ (forall n, n ∈ proveedores_nombres -> n ∈ nombres_de p')
    /\ (exists nuevas, filas c' = filas tabla_vacia ++ nuevas)
    /\ (exists nuevas, filas p' = filas tabla_vacia ++ nuevas)
    /\ create_categories_and_providers (c', p') = inl (c', p').
Proof.
  apply (sembrar_idempotente tabla_vacia tabla_vacia); apply NoDup_nil_2.
Defined.
